(** * bulk_folder_updater.py: a shallow embedding and its verified properties

    The script walks a remote folder tree, matches every file it finds
    against the rows of a spreadsheet, builds a custom-attribute payload
    from the matched row and posts it.  This development embeds the four
    functions that carry logic ([get_all_files_recursive], [format_date],
    [build_attributes_from_excel] and the per-file loop of [main]) together
    with the pieces of Python, pandas and the HTTP layer they observe.

    Conventions.
    - A Python [str] is a [string]; each [ascii] stands for the code point
      of the same number (the Latin-1 range).
    - What an HTTP call or [pd.read_excel] answers is an input of the
      model: the remote side is data, not code.
    - A function that catches every exception returns a sum or an option. *)

From Stdlib Require Import String Ascii List ZArith Lia Bool Arith.
From Stdlib Require Import Numbers.DecimalString.
Import ListNotations.

Open Scope string_scope.
Open Scope Z_scope.

(** ** Python string primitives *)

Module Py.

(** [str.isspace] on one character of the Latin-1 range: the C0 controls
    TAB..CR and FS..US, the space, NEL (0x85) and the no-break space. *)
Definition isspace (c : ascii) : bool :=
  let n := N_of_ascii c in
  ((9 <=? n) && (n <=? 13) || (28 <=? n) && (n <=? 32)
   || (n =? 133) || (n =? 160))%N.

Fixpoint lstrip (s : string) : string :=
  match s with
  | String c r => if isspace c then lstrip r else s
  | EmptyString => EmptyString
  end.

(** [rstrip] keeps a character when something that is not white space
    follows it, or when it is not white space itself. *)
Fixpoint rstrip (s : string) : string :=
  match s with
  | String c r =>
      match rstrip r with
      | EmptyString => if isspace c then EmptyString else String c EmptyString
      | r' => String c r'
      end
  | EmptyString => EmptyString
  end.

(** [s.strip()] *)
Definition strip (s : string) : string := rstrip (lstrip s).

(** [s.startswith(p)] *)
Definition startswith (s p : string) : bool := String.prefix p s.

(** [sub in s] *)
Fixpoint contains (sub s : string) : bool :=
  if String.prefix sub s then true
  else match s with
       | String _ r => contains sub r
       | EmptyString => false
       end.

(** [s.rsplit(sep, 1)[0]] for a one-character separator: the text before
    the last [sep]; [None] stands for "no separator in [s]", where Python
    answers the one-element list [[s]]. *)
Fixpoint before_last (sep : ascii) (s : string) : option string :=
  match s with
  | EmptyString => None
  | String c r =>
      match before_last sep r with
      | Some b => Some (String c b)
      | None => if Ascii.eqb c sep then Some EmptyString else None
      end
  end.

Definition rsplit1_head (sep : ascii) (s : string) : string :=
  match before_last sep s with
  | Some b => b
  | None => s
  end.

(** [c.lower()] on the Latin-1 range: A..Z and the accented capitals
    0xC0..0xDE (the multiplication sign 0xD7 apart) move up by 32. *)
Definition lower_char (c : ascii) : ascii :=
  let n := N_of_ascii c in
  if ((65 <=? n) && (n <=? 90)
      || (192 <=? n) && (n <=? 222) && negb (n =? 215))%N
  then ascii_of_N (n + 32) else c.

Fixpoint lower (s : string) : string :=
  match s with
  | EmptyString => EmptyString
  | String c r => String (lower_char c) (lower r)
  end.

(** [str(z)] for an [int] *)
Definition str_of_int (z : Z) : string :=
  NilZero.string_of_int (Z.to_int z).

(** Truth value of a [str]: the empty string is false. *)
Definition truthy (s : string) : bool :=
  match s with
  | EmptyString => false
  | _ => true
  end.

(** Zero padding of a non-negative number to [width] digits, as the
    [%m] and [%d] fields of [strftime] and the fields of [isoformat]
    print. *)
Fixpoint zeros (n : nat) : string :=
  match n with
  | O => EmptyString
  | S k => String "0" (zeros k)
  end.

Definition zfill (width : nat) (z : Z) : string :=
  let d := str_of_int z in
  zeros (width - String.length d) ++ d.

End Py.

(** ** Dates: [datetime], [strftime] and [datetime.strptime] *)

Record datetime : Type := mk_datetime
  { year : Z; month : Z; day : Z; hour : Z; minute : Z; second : Z }.

Module Strptime.

(** The regular expressions [_strptime] builds use literal characters,
    character ranges, [\d], concatenation and ordered alternation; the
    pattern is compiled with [re.IGNORECASE]. *)
Inductive re : Type :=
| Chr (c : ascii)
| Rng (lo hi : ascii)
| Digit
| Cat (a b : re)
| Alt (a b : re).

Definition in_range (lo hi c : ascii) : bool :=
  ((N_of_ascii lo <=? N_of_ascii c) && (N_of_ascii c <=? N_of_ascii hi))%N.

Definition is_digit (c : ascii) : bool := in_range "0" "9" c.

Definition one (ok : ascii -> bool) (s : string) : list (string * string) :=
  match s with
  | String c r => if ok c then [(String c EmptyString, r)] else []
  | EmptyString => []
  end.

(** Every way [r] matches a prefix of [s], as (matched text, rest), in
    the order a backtracking matcher tries them. *)
Fixpoint matches (r : re) (s : string) : list (string * string) :=
  match r with
  | Chr c => one (fun x => Ascii.eqb (Py.lower_char x) (Py.lower_char c)) s
  | Rng lo hi => one (in_range lo hi) s
  | Digit => one is_digit s
  | Cat a b =>
      flat_map (fun m1 =>
                  map (fun m2 => (fst m1 ++ fst m2, snd m2))
                      (matches b (snd m1)))
               (matches a s)
  | Alt a b => matches a s ++ matches b s
  end.

(** The range that holds no character: the pattern that never matches. *)
Definition never : re := Rng "001" "000".

(** A literal word of one character or more. *)
Fixpoint word (w : string) : re :=
  match w with
  | String c EmptyString => Chr c
  | String c r => Cat (Chr c) (word r)
  | EmptyString => never
  end.

(** [r1|r2|...|rn] *)
Fixpoint alts (rs : list re) : re :=
  match rs with
  | [r] => r
  | r :: rest => Alt r (alts rest)
  | [] => never
  end.

Inductive directive : Type := Dd | Db | Dy | DY | Dm.

Inductive token : Type :=
| Field (d : directive)
| Lit (c : ascii).

(** [calendar.month_abbr], lower-cased, of the C locale *)
Definition a_month : list string :=
  ["jan"; "feb"; "mar"; "apr"; "may"; "jun";
   "jul"; "aug"; "sep"; "oct"; "nov"; "dec"].

(** The pattern of each directive, as [TimeRE] has it. *)
Definition pattern (d : directive) : re :=
  match d with
  | Dd => alts [Cat (Chr "3") (Rng "0" "1");
                Cat (Rng "1" "2") Digit;
                Cat (Chr "0") (Rng "1" "9");
                Rng "1" "9";
                Cat (Chr " ") (Rng "1" "9")]
  | Dm => alts [Cat (Chr "1") (Rng "0" "2");
                Cat (Chr "0") (Rng "1" "9");
                Rng "1" "9"]
  | Dy => Cat Digit Digit
  | DY => Cat Digit (Cat Digit (Cat Digit Digit))
  | Db => alts (map word a_month)
  end.

(** The format strings of the script use the directives above and
    literal punctuation; anything else is outside this model. *)
Fixpoint compile (fmt : string) : option (list token) :=
  match fmt with
  | EmptyString => Some []
  | String "%" (String c r) =>
      match (if Ascii.eqb c "d" then Some Dd
             else if Ascii.eqb c "b" then Some Db
             else if Ascii.eqb c "y" then Some Dy
             else if Ascii.eqb c "Y" then Some DY
             else if Ascii.eqb c "m" then Some Dm
             else None), compile r with
      | Some d, Some ts => Some (Field d :: ts)
      | _, _ => None
      end
  | String c r =>
      if Py.isspace c || Ascii.eqb c "%" then None
      else option_map (cons (Lit c)) (compile r)
  end.

Definition groups : Type := list (directive * string).

(** All matches of the whole pattern, with the named groups found. *)
Fixpoint match_tokens (ts : list token) (s : string)
  : list (groups * string) :=
  match ts with
  | [] => [([], s)]
  | Lit c :: rest =>
      flat_map (fun m => match_tokens rest (snd m)) (matches (Chr c) s)
  | Field d :: rest =>
      flat_map (fun m =>
                  map (fun g => ((d, fst m) :: fst g, snd g))
                      (match_tokens rest (snd m)))
               (matches (pattern d) s)
  end.

Definition digit_value (c : ascii) : Z :=
  Z.of_N (N_of_ascii c) - 48.

Fixpoint digits_value (acc : Z) (s : string) : option Z :=
  match s with
  | EmptyString => Some acc
  | String c r =>
      if is_digit c then digits_value (10 * acc + digit_value c) r
      else None
  end.

(** [int(s)] *)
Definition py_int (s : string) : option Z :=
  match Py.strip s with
  | EmptyString => None
  | t => digits_value 0 t
  end.

Fixpoint index_of (w : string) (l : list string) (i : Z) : option Z :=
  match l with
  | [] => None
  | x :: rest => if String.eqb x w then Some i else index_of w rest (i + 1)
  end.

Fixpoint group (d : directive) (g : groups) : option string :=
  match g with
  | [] => None
  | (d', v) :: rest =>
      match d, d' with
      | Dd, Dd | Db, Db | Dy, Dy | DY, DY | Dm, Dm => Some v
      | _, _ => group d rest
      end
  end.

(** The year, month and day the groups give; 1900-01-01 where a field
    has no directive. *)
Definition year_of (g : groups) : option Z :=
  match group DY g, group Dy g with
  | Some v, _ => py_int v
  | None, Some v =>
      option_map (fun y => if y <=? 68 then y + 2000 else y + 1900)
                 (py_int v)
  | None, None => Some 1900
  end.

Definition month_of (g : groups) : option Z :=
  match group Dm g, group Db g with
  | Some v, _ => py_int v
  | None, Some v => index_of (Py.lower v) a_month 1
  | None, None => Some 1
  end.

Definition day_of (g : groups) : option Z :=
  match group Dd g with
  | Some v => py_int v
  | None => Some 1
  end.

Definition is_leap (y : Z) : bool :=
  (y mod 4 =? 0) && (negb (y mod 100 =? 0) || (y mod 400 =? 0)).

Definition days_in_month (y m : Z) : Z :=
  if m =? 2 then (if is_leap y then 29 else 28)
  else if (m =? 4) || (m =? 6) || (m =? 9) || (m =? 11) then 30
  else 31.

(** The check the [date] constructor makes. *)
Definition valid_date (y m d : Z) : bool :=
  (1 <=? y) && (y <=? 9999) && (1 <=? m) && (m <=? 12)
  && (1 <=? d) && (d <=? days_in_month y m).

(** [datetime.strptime(s, fmt)]; [None] is [ValueError]: the pattern
    does not match at the start of [s], text remains after the match, or
    the fields are not a date of the calendar. *)
Definition strptime (s fmt : string) : option datetime :=
  match compile fmt with
  | None => None
  | Some ts =>
      match match_tokens ts s with
      | (g, EmptyString) :: _ =>
          match year_of g, month_of g, day_of g with
          | Some y, Some m, Some d =>
              if valid_date y m d then Some (mk_datetime y m d 0 0 0)
              else None
          | _, _, _ => None
          end
      | _ => None
      end
  end.

End Strptime.

(** [dt.strftime("%Y-%m-%dT00:00:00.000Z")].  [%Y] is the year as a decimal
    number: the C library writes it without leading zeros, so a year below
    1000 has fewer than four digits; [%m] and [%d] have two digits. *)
Definition strftime_iso_midnight (dt : datetime) : string :=
  Py.str_of_int (year dt) ++ "-" ++ Py.zfill 2 (month dt) ++ "-"
  ++ Py.zfill 2 (day dt) ++ "T00:00:00.000Z".

(** ** pandas scalars and frames *)

(** What a cell read by [pd.read_excel] holds: nothing (float NaN), text,
    an integer or a date-time.  Cells of other kinds (floating-point
    numbers, booleans) are outside this model: the script only prints
    them with [str]. *)
Inductive cell : Type :=
| NaN
| Str (s : string)
| Int (z : Z)
| Date (d : datetime).

(** [pd.isna(v)] *)
Definition isna (v : cell) : bool :=
  match v with
  | NaN => true
  | _ => false
  end.

(** [str(v)] *)
Definition py_str (v : cell) : string :=
  match v with
  | NaN => "nan"
  | Str s => s
  | Int z => Py.str_of_int z
  | Date d =>
      Py.zfill 4 (year d) ++ "-" ++ Py.zfill 2 (month d) ++ "-"
      ++ Py.zfill 2 (day d) ++ " " ++ Py.zfill 2 (hour d) ++ ":"
      ++ Py.zfill 2 (minute d) ++ ":" ++ Py.zfill 2 (second d)
  end.

(** [v == ""] *)
Definition is_empty_str (v : cell) : bool :=
  match v with
  | Str EmptyString => true
  | _ => false
  end.

(** A row is a Series: the cells of one spreadsheet row under their
    column labels. *)
Definition row : Type := list (string * cell).

Record DataFrame : Type := mk_frame
  { columns : list string; rows : list row }.

(** [row.get(key, default)] *)
Fixpoint series_get (r : row) (key : string) (default : cell) : cell :=
  match r with
  | [] => default
  | (k, v) :: rest => if String.eqb k key then v else series_get rest key default
  end.

(** [key in df.columns] *)
Definition has_column (df : DataFrame) (key : string) : bool :=
  existsb (String.eqb key) (columns df).

(** ** The attribute schema *)

(** [ATTRIBUTE_MAPPING]: attribute ids of the project, by column name. *)
Definition ATTRIBUTE_MAPPING : list (string * Z) :=
  [("Package ID", 7374741);
   ("Package Name", 7374744);
   ("Contractor", 7374759);
   ("Location", 7374769);
   ("Planned Start", 7374777);
   ("Planned End", 7374783);
   ("Actual Start", 7374787);
   ("Actual End", 7374795);
   ("% Completion", 7374805)].

(** [ATTRIBUTE_MAPPING[col]], [None] when [col not in ATTRIBUTE_MAPPING]. *)
Fixpoint dict_get (d : list (string * Z)) (key : string) : option Z :=
  match d with
  | [] => None
  | (k, v) :: rest => if String.eqb k key then Some v else dict_get rest key
  end.

(** ** [format_date] *)

Definition date_formats : list string :=
  ["%d-%b-%y"; "%d-%b-%Y"; "%Y-%m-%d"; "%m/%d/%Y"; "%d/%m/%Y"].

(** The [for fmt in ...] loop: the first format that parses returns. *)
Fixpoint try_formats (date_str : string) (fmts : list string)
  : option string :=
  match fmts with
  | [] => None
  | fmt :: rest =>
      match Strptime.strptime date_str fmt with
      | Some dt => Some (strftime_iso_midnight dt)
      | None => try_formats date_str rest
      end
  end.

Definition format_date (date_value : cell) : option string :=
  if isna date_value || is_empty_str date_value then None
  else match date_value with
       | Date d => Some (strftime_iso_midnight d)
       | _ => try_formats (Py.strip (py_str date_value)) date_formats
       end.

(** ** [build_attributes_from_excel] *)

Inductive match_method : Type :=
| file_name_column
| urn
| filename_in_acc_file_id
| single_row
| not_matched
| error.

(** The text the script uses for each method. *)
Definition method_text (m : match_method) : string :=
  match m with
  | file_name_column => "file_name_column"
  | urn => "urn"
  | filename_in_acc_file_id => "filename_in_acc_file_id"
  | single_row => "single_row"
  | not_matched => "not_matched"
  | error => "error"
  end.

(** One entry [{"id": ..., "value": ...}] of a payload. *)
Record attribute : Type := mk_attribute { attr_id : Z; attr_value : string }.

Definition payload : Type := list attribute.

(** [file_name.rsplit(".", 1)[0] if "." in file_name else file_name] *)
Definition name_base (file_name : string) : string :=
  if Py.contains "." file_name then Py.rsplit1_head "." file_name
  else file_name.

Section Matcher.

Variables (file_name item_urn : string).

Let file_name_base : string := name_base file_name.

(** Strategy 1, the test made on one row. *)
Definition name_row_matches (r : row) : bool :=
  let row_file_name := Py.strip (py_str (series_get r "file_name" (Str ""))) in
  Py.truthy row_file_name
  && (String.eqb row_file_name file_name
      || String.eqb row_file_name file_name_base).

(** Whether the text looks like a URN. *)
Definition looks_like_urn (row_value : string) : bool :=
  Py.contains "urn:adsk" row_value || Py.contains "dm.lineage" row_value.

(** The URN the text stands for. *)
Definition as_urn (row_value : string) : string :=
  if negb (Py.startswith row_value "urn:") then "urn:" ++ row_value
  else row_value.

(** The comparison of a text that is taken as a file name. *)
Definition filename_test (row_value : string) : bool :=
  let row_file_base := name_base row_value in
  String.eqb row_value file_name
  || String.eqb row_file_base file_name_base
  || String.eqb row_value file_name_base.

(** Strategy 2, the body of the loop on one row: the method under which
    the row matches, [None] when the loop goes on to the next row. *)
Definition acc_row_matches (r : row) : option match_method :=
  let row_value := Py.strip (py_str (series_get r "acc_file_id" (Str ""))) in
  if negb (Py.truthy row_value) then None
  else if looks_like_urn row_value then
    (if String.eqb (as_urn row_value) item_urn then Some urn else None)
  else
    (if filename_test row_value then Some filename_in_acc_file_id else None).

(** Strategy 2, the loop: the first row that matches, with its method. *)
Fixpoint scan_acc_file_id (rs : list row) : option (row * match_method) :=
  match rs with
  | [] => None
  | r :: rest =>
      match acc_row_matches r with
      | Some m => Some (r, m)
      | None => scan_acc_file_id rest
      end
  end.

(** The row chosen and the method, before the payload is built. *)
Definition find_row (df : DataFrame) : option (row * match_method) :=
  let matched1 :=
    if has_column df "file_name"
    then option_map (fun r => (r, file_name_column))
                    (find name_row_matches (rows df))
    else None in
  let matched2 :=
    match matched1 with
    | None => if has_column df "acc_file_id"
              then scan_acc_file_id (rows df) else None
    | Some m => Some m
    end in
  match matched2, rows df with
  | None, [r] => Some (r, single_row)
  | _, _ => matched2
  end.

End Matcher.

(** A column is a date column when its lower-cased name holds "start" or
    "end". *)
Definition is_date_column (col : string) : bool :=
  Py.contains "start" (Py.lower col) || Py.contains "end" (Py.lower col).

(** The value sent for one column of the matched row; [None] is Python's
    [None].  [matched_row.get(col)] has the default [None], which
    [pd.isna] and [pd.notna] treat as they treat NaN, and which is never
    printed. *)
Definition column_value (matched_row : row) (col : string) : option string :=
  let value := series_get matched_row col NaN in
  if is_date_column col then format_date value
  else if negb (isna value) then Some (Py.strip (py_str value))
  else None.

(** The [for col in df.columns] loop. *)
Fixpoint build_payload (matched_row : row) (cols : list string) : payload :=
  match cols with
  | [] => []
  | col :: rest =>
      match dict_get ATTRIBUTE_MAPPING col with
      | Some id =>
          match column_value matched_row col with
          | Some value =>
              if Py.truthy value
              then mk_attribute id value :: build_payload matched_row rest
              else build_payload matched_row rest
          | None => build_payload matched_row rest
          end
      | None => build_payload matched_row rest
      end
  end.

(** [excel] is what [pd.read_excel(excel_file)] gives: a frame, or [None]
    when it raises. *)
Definition build_attributes_from_excel
  (excel : option DataFrame) (file_name item_urn : string)
  : option payload * match_method :=
  match excel with
  | None => (None, error)
  | Some df =>
      match find_row file_name item_urn df with
      | Some (matched_row, method) =>
          (Some (build_payload matched_row (columns df)), method)
      | None => (None, not_matched)
      end
  end.

(** ** The remote side *)

(** What a request comes back with: an exception raised by [requests], or
    a response with its status code and the part of its JSON body the
    script reads. *)
Inductive reply (A : Type) : Type :=
| Raised (e : string)
| Http (status_code : Z) (body : A).

Arguments Raised {A} e.
Arguments Http {A} status_code body.

(** An entry of a folder listing: its ["type"], the ["displayName"] of its
    ["attributes"] when it has one, its ["id"], and what the listing of
    that id answers.  The body of a listing is its ["data"]; [None] is a
    body without it, or one that is not JSON. *)
#[warnings="-register-all"]
Inductive item : Type :=
| Item (type : string) (displayName : option string) (id : string)
       (contents : reply (option (list item))).

Definition listing : Type := reply (option (list item)).

Record file_info : Type := mk_file_info
  { fi_id : string; fi_name : string; fi_path : string }.

Definition list_folder_contents (r : listing) : list item :=
  match r with
  | Http status (Some data) => if status =? 200 then data else []
  | Http _ None => []
  | Raised _ => []
  end.

(** [f"{current_path}/{item_name}" if current_path else item_name] *)
Definition join_path (current_path item_name : string) : string :=
  if Py.truthy current_path then current_path ++ "/" ++ item_name
  else item_name.

(** [item.get("attributes", {}).get("displayName", "Unknown")] *)
Definition display_name (n : option string) : string :=
  match n with
  | Some s => s
  | None => "Unknown"
  end.

(** The body of the [for item in contents] loop: what one entry adds to
    [all_files].  The recursion of the script goes from a folder entry to
    the entries of its listing, so it is structural on the entry; the call
    [get_all_files_recursive(token, project_id, item_id, subfolder_path)]
    is written out here and folded back by [visit_folder] below. *)
Fixpoint visit_item (current_path : string) (it : item) {struct it}
  : list file_info :=
  match it with
  | Item item_type n item_id sub =>
      let item_name := display_name n in
      if String.eqb item_type "items" then
        [mk_file_info item_id item_name (join_path current_path item_name)]
      else if String.eqb item_type "folders" then
        let subfolder_path := join_path current_path item_name in
        match sub with
        | Http status (Some data) =>
            if status =? 200 then
              (fix for_items (contents : list item) : list file_info :=
                 match contents with
                 | [] => []
                 | x :: rest =>
                     (visit_item subfolder_path x ++ for_items rest)%list
                 end) data
            else []
        | Http _ None => []
        | Raised _ => []
        end
      else []
  end.

(** The [for item in contents] loop. *)
Fixpoint for_items (current_path : string) (contents : list item)
  : list file_info :=
  match contents with
  | [] => []
  | x :: rest => (visit_item current_path x ++ for_items current_path rest)%list
  end.

(** [folder] is the answer to the listing of [folder_urn]. *)
Definition get_all_files_recursive (folder : listing) (current_path : string)
  : list file_info :=
  let contents := list_folder_contents folder in
  for_items current_path contents.

(** ** The per-file requests *)

(** [r] answers the request for the tip version of the item; its body is
    the ["id"] of its ["data"], [None] when the body has none. *)
Definition get_version_urn_from_item (r : reply (option string))
  : option string :=
  match r with
  | Http status body => if status =? 200 then body else None
  | Raised _ => None
  end.

(** [r] answers the batch update. *)
Definition update_custom_attributes (r : reply unit) : bool * string :=
  match r with
  | Http status _ =>
      if status =? 200 then (true, "Success")
      else (false, "Status " ++ Py.str_of_int status)
  | Raised e => (false, "Exception: " ++ e)
  end.

(** The remote service: what it answers to each of the two requests. *)
Record remote : Type := mk_remote
  { tip : string -> reply (option string);
    batch_update : string -> payload -> reply unit }.

(** ** The loop of [main] *)

Inductive outcome : Type :=
| success (attrs : nat)
| failed (reason : string)
| skipped (reason : string).

(** One record of [results]. *)
Record result : Type := mk_result { file : string; status : outcome }.

(** A request sent to the remote service. *)
Inductive call : Type :=
| tip_lookup (item_urn : string)
| batch_update_post (version_urn : string) (attributes_payload : payload).

(** The variables the loop updates; [calls] is the trace of requests the
    iterations have sent, oldest first. *)
Record state : Type := mk_state
  { success_count : nat;
    failed_count : nat;
    skipped_count : nat;
    results : list result;
    calls : list call }.

Definition initial_state : state := mk_state 0 0 0 [] [].

(** [not payload]: [None] and the empty list are false. *)
Definition not_payload (p : option payload) : bool :=
  match p with
  | None => true
  | Some [] => true
  | Some (_ :: _) => false
  end.

(** [not version_urn]: [None] and the empty string are false. *)
Definition not_version (v : option string) : bool :=
  match v with
  | None => true
  | Some s => negb (Py.truthy s)
  end.

Definition record_skipped (st : state) (path reason : string) : state :=
  mk_state (success_count st) (failed_count st) (S (skipped_count st))
           (results st ++ [mk_result path (skipped reason)]) (calls st).

Definition record_failed (st : state) (path reason : string)
  (sent : list call) : state :=
  mk_state (success_count st) (S (failed_count st)) (skipped_count st)
           (results st ++ [mk_result path (failed reason)])
           (calls st ++ sent).

Definition record_success (st : state) (path : string) (attrs : nat)
  (sent : list call) : state :=
  mk_state (S (success_count st)) (failed_count st) (skipped_count st)
           (results st ++ [mk_result path (success attrs)])
           (calls st ++ sent).

Section Loop.

(** [use_excel]: whether the spreadsheet file exists; [excel]: what
    reading it gives; [R]: the remote service. *)
Variables (use_excel : bool) (excel : option DataFrame) (R : remote).

(** The version lookup and the update of one file, once it has a
    payload. *)
Definition update_file (st : state) (file_path item_urn : string)
  (p : payload) : state :=
  let version_urn := get_version_urn_from_item (tip R item_urn) in
  if not_version version_urn then
    record_failed st file_path "Version lookup failed" [tip_lookup item_urn]
  else
    let v := match version_urn with Some v => v | None => "" end in
    let sent := [tip_lookup item_urn; batch_update_post v p] in
    let (ok, message) := update_custom_attributes (batch_update R v p) in
    if ok then record_success st file_path (List.length p) sent
    else record_failed st file_path message sent.

(** One iteration of [for idx, file_info in enumerate(all_files, 1)]. *)
Definition process_file (st : state) (f : file_info) : state :=
  let file_name := fi_name f in
  let item_urn := fi_id f in
  let file_path := fi_path f in
  if use_excel then
    let (p, source) := build_attributes_from_excel excel file_name item_urn in
    if not_payload p then record_skipped st file_path (method_text source)
    else update_file st file_path item_urn
                     (match p with Some l => l | None => [] end)
  else record_skipped st file_path "No Excel file".

(** The whole loop, from the initial counters. *)
Definition main_loop (all_files : list file_info) : state :=
  fold_left process_file all_files initial_state.

End Loop.

(** ** Notions the properties are stated with *)

(** *** The folder tree *)

(** A listing fails when the request raises, when the status is not 200,
    or when the body has no ["data"]. *)
Definition listing_failed (r : listing) : Prop :=
  match r with
  | Raised _ => True
  | Http status None => True
  | Http status (Some _) => status <> 200
  end.

Definition is_file (it : item) : bool :=
  match it with
  | Item item_type _ _ _ => String.eqb item_type "items"
  end.

Definition is_folder (it : item) : bool :=
  match it with
  | Item item_type _ _ _ => String.eqb item_type "folders"
  end.

Definition item_name_of (it : item) : string :=
  match it with
  | Item _ n _ _ => display_name n
  end.

(** The entries of the tree under one entry, the entry itself first, each
    with the display names of the folders above it, outermost first: the
    depth-first pre-order of the tree.  Only a folder has entries under
    it, those its listing reports. *)
Fixpoint entries (ancestors : list string) (it : item) {struct it}
  : list (list string * item) :=
  (ancestors, it) ::
  match it with
  | Item _ n _ sub =>
      if is_folder it then
        match sub with
        | Http status (Some data) =>
            if status =? 200 then
              (fix under (l : list item) : list (list string * item) :=
                 match l with
                 | [] => []
                 | x :: rest =>
                     (entries (ancestors ++ [display_name n]) x
                      ++ under rest)%list
                 end) data
            else []
        | Http _ None => []
        | Raised _ => []
        end
      else []
  end.

Definition tree_entries (root : listing) : list (list string * item) :=
  flat_map (entries []) (list_folder_contents root).

(** ["/".join(names)] *)
Definition slash_join (names : list string) : string :=
  String.concat "/" names.

(** The names left once the leading empty ones are dropped. *)
Fixpoint drop_leading_empty (names : list string) : list string :=
  match names with
  | EmptyString :: rest => drop_leading_empty rest
  | _ => names
  end.

(** The file record of a FILE entry, for a given rule of paths. *)
Definition file_of (path_of : list string -> string -> string)
  (e : list string * item) : file_info :=
  match e with
  | (ancestors, Item _ n item_id _) =>
      mk_file_info item_id (display_name n) (path_of ancestors (display_name n))
  end.

(** The path as the join of all the names above the file and its own. *)
Definition joined_path (ancestors : list string) (name : string) : string :=
  slash_join (ancestors ++ [name]).

(** The same join, the leading empty folder names left out. *)
Definition trimmed_path (ancestors : list string) (name : string) : string :=
  slash_join (drop_leading_empty ancestors ++ [name]).

(** The path the walk has built once it stands under the folders
    [ancestors], outermost first. *)
Definition walked_path (ancestors : list string) : string :=
  fold_left join_path ancestors EmptyString.

(** The FILE entries of the tree, in pre-order, each once. *)
Definition file_entries (root : listing) : list (list string * item) :=
  filter (fun e => is_file (snd e)) (tree_entries root).

(** The walk of one entry, started under the folders [anc], returns the
    FILE entries at and under it, in pre-order. *)
Definition walks_its_files (it : item) : Prop :=
  forall anc,
    visit_item (walked_path anc) it
    = map (file_of trimmed_path)
          (filter (fun e => is_file (snd e)) (entries anc it)).

(** *** Rows and payloads *)

(** Some character of the text is not white space. *)
Fixpoint has_ink (s : string) : bool :=
  match s with
  | EmptyString => false
  | String c r => negb (Py.isspace c) || has_ink r
  end.


(** The text a cell gives to the matcher. *)
Definition cell_text (r : row) (key : string) : string :=
  Py.strip (py_str (series_get r key (Str ""))).

(** A cell the matcher passes over: its text is empty. *)
Definition treated_as_absent (c : cell) : Prop :=
  Py.strip (py_str c) = EmptyString.

(** Some row matches under strategy 1. *)
Definition name_match_exists (file_name : string) (df : DataFrame) : Prop :=
  has_column df "file_name" = true
  /\ Exists (fun r => name_row_matches file_name r = true) (rows df).

(** Some row matches in the pass over "acc_file_id". *)
Definition id_match_exists (file_name item_urn : string) (df : DataFrame)
  : Prop :=
  has_column df "acc_file_id" = true
  /\ Exists (fun r => acc_row_matches file_name item_urn r <> None) (rows df).

(** [l1] is [l2] with some elements left out, the order kept. *)
Inductive subsequence {A : Type} : list A -> list A -> Prop :=
| sub_nil : subsequence [] []
| sub_skip : forall x l1 l2, subsequence l1 l2 -> subsequence l1 (x :: l2)
| sub_take : forall x l1 l2, subsequence l1 l2 -> subsequence (x :: l1) (x :: l2).

(** *** Outcomes *)

Definition is_success (r : result) : bool :=
  match status r with success _ => true | _ => false end.

Definition is_failed (r : result) : bool :=
  match status r with failed _ => true | _ => false end.

Definition is_skipped (r : result) : bool :=
  match status r with skipped _ => true | _ => false end.

Definition count (p : result -> bool) (l : list result) : nat :=
  List.length (filter p l).

(** *** Sample data *)

(** The five formats agree on these four spellings of 15 January 2024. *)
Definition jan15_spellings : list string :=
  ["15-Jan-24"; "15-Jan-2024"; "2024-01-15"; "01/15/2024"].

Definition jan15_midnight : string := "2024-01-15T00:00:00.000Z".

(** A frame whose only attribute cell is blank: a row matches by name and
    its payload is empty. *)
Definition blank_frame : DataFrame :=
  mk_frame ["file_name"; "Contractor"]
           [[("file_name", Str "x.pdf"); ("Contractor", NaN)];
            [("file_name", Str "other.pdf"); ("Contractor", Str "ACME")]].


(** A service that answers every request with success. *)
Definition obliging : remote :=
  mk_remote (fun _ => Http 200 (Some "urn:adsk.wipprod:fs.file:v?version=1"))
            (fun _ _ => Http 200 tt).

(** Two rows whose "acc_file_id" cells are file names; the first, with its
    extension taken off, reads [a.b]. *)
Definition dotted_frame : DataFrame :=
  mk_frame ["acc_file_id"; "Contractor"]
           [[("acc_file_id", Str "a.b.pdf"); ("Contractor", Str "ACME")];
            [("acc_file_id", Str "c.pdf"); ("Contractor", Str "Bolt")]].

(** A top-level folder with an empty display name that holds one file. *)
Definition unnamed_folder_tree : listing :=
  Http 200 (Some [Item "folders" (Some "") "f0"
                       (Http 200 (Some [Item "items" (Some "x") "i0"
                                             (Raised "")]))]).

(** The tree of the scenario: folder A holds x.pdf and folder B, whose
    listing is the argument; B holds y.pdf when its listing succeeds. *)
Definition scenario_tree (b_listing : listing) : listing :=
  Http 200 (Some [Item "folders" (Some "A") "fa"
                       (Http 200 (Some [Item "folders" (Some "B") "fb" b_listing;
                                        Item "items" (Some "x.pdf") "ix"
                                             (Raised "")]))]).

Definition b_contents : listing :=
  Http 200 (Some [Item "items" (Some "y.pdf") "iy" (Raised "")]).

(** The dataset of the scenario: one row, named by both columns. *)
Definition scenario_frame : DataFrame :=
  mk_frame ["file_name"; "acc_file_id"; "Package ID"; "Planned Start"; "Notes"]
           [[("file_name", Str "x"); ("acc_file_id", Str "y.pdf");
             ("Package ID", Int 12); ("Planned Start", Str "15-Jan-24");
             ("Notes", Str "n/a")]].

(** For x.pdf the second row matches by the name column and the first by
    the "acc_file_id" column. *)
Definition both_frame : DataFrame :=
  mk_frame ["file_name"; "acc_file_id"; "Location"]
           [[("file_name", Str "other.pdf"); ("acc_file_id", Str "x.pdf");
             ("Location", Str "by id")];
            [("file_name", Str "x.pdf"); ("acc_file_id", Str "other.pdf");
             ("Location", Str "by name")]].

(** The first row names x.pdf as a file name in "acc_file_id", the second
    row holds the URN of an item. *)
Definition mixed_frame : DataFrame :=
  mk_frame ["acc_file_id"; "Location"]
           [[("acc_file_id", Str "x.pdf"); ("Location", Str "by filename")];
            [("acc_file_id", Str "urn:adsk.wipprod:dm.lineage:abc");
             ("Location", Str "by urn")]].

(** A row whose "acc_file_id" reads as a URN. *)
Definition urn_row : row :=
  [("acc_file_id", Str "adsk.wipprod:dm.lineage:abc")].

(** A row whose "acc_file_id" reads as a file name. *)
Definition plain_row : row := [("acc_file_id", Str " report.v2.pdf ")].

(** A row whose planned start is no date and whose planned end is one. *)
Definition vague_row : row :=
  [("Package ID", Str "P-7"); ("Planned Start", Str "next spring");
   ("Planned End", Str " 03/04/2025 ")].

(** A frame whose first row has no "file_name" and no "acc_file_id". *)
Definition gap_frame : DataFrame :=
  mk_frame ["file_name"; "acc_file_id"; "Location"]
           [[("file_name", NaN); ("acc_file_id", NaN); ("Location", Str "L1")];
            [("file_name", Str "  "); ("acc_file_id", Str "");
             ("Location", Str "L2")]].

(** ** The requests of the script: URLs and the token *)

Module Url.

(** [s.replace(old, new)] for a non-empty [old]: the occurrences of [old]
    are taken from the left and do not overlap.  [skip] counts the
    characters of an occurrence still to be passed over. *)
Fixpoint replace_from (old new : string) (skip : nat) (s : string) : string :=
  match s with
  | EmptyString => EmptyString
  | String c r =>
      match skip with
      | S k => replace_from old new k r
      | O =>
          if String.prefix old s
          then new ++ replace_from old new (String.length old - 1) r
          else String c (replace_from old new 0 r)
      end
  end.

Definition replace (s old new : string) : string := replace_from old new 0 s.

(** The bytes [urllib.parse.quote] never escapes: letters, digits and
    [_.-~]. *)
Definition always_safe (c : ascii) : bool :=
  let n := N_of_ascii c in
  ((65 <=? n) && (n <=? 90) || (97 <=? n) && (n <=? 122)
   || (48 <=? n) && (n <=? 57)
   || (n =? 95) || (n =? 46) || (n =? 45) || (n =? 126))%N.

Definition hex_digit (n : N) : ascii :=
  if (n <? 10)%N then ascii_of_N (48 + n) else ascii_of_N (55 + n).

(** ['%{:02X}'.format(b)] *)
Definition percent (b : N) : string :=
  String "%" (String (hex_digit (b / 16)) (String (hex_digit (b mod 16))
                                                  EmptyString)).

(** One byte of the UTF-8 text, quoted with [safe='']. *)
Definition quote_byte (b : N) : string :=
  if always_safe (ascii_of_N b) then String (ascii_of_N b) EmptyString
  else percent b.

(** The UTF-8 bytes of one code point below 256. *)
Definition utf8 (c : ascii) : list N :=
  let n := N_of_ascii c in
  if (n <? 128)%N then [n] else [192 + n / 64; 128 + n mod 64]%N.

Definition quote_char (c : ascii) : string :=
  String.concat EmptyString (map quote_byte (utf8 c)).

(** [urllib.parse.quote(s, safe='')] *)
Fixpoint quote (s : string) : string :=
  match s with
  | EmptyString => EmptyString
  | String c r => quote_char c ++ quote r
  end.

Definition BASE_URL : string := "https://developer.api.autodesk.com".

(** The URL [update_custom_attributes] posts to. *)
Definition update_url (project_id version_urn : string) : string :=
  let project_id_without_b := replace project_id "b." EmptyString in
  let encoded_version_urn := quote version_urn in
  BASE_URL ++ "/bim360/docs/v1/projects/" ++ project_id_without_b
  ++ "/versions/" ++ encoded_version_urn ++ "/custom-attributes:batch-update".

(** The value of a hexadecimal digit in upper case. *)
Definition hex_value (c : ascii) : option N :=
  let n := N_of_ascii c in
  if ((48 <=? n) && (n <=? 57))%N then Some (n - 48)%N
  else if ((65 <=? n) && (n <=? 70))%N then Some (n - 55)%N
  else None.

(** The byte at the head of a quoted text, and what follows it. *)
Definition read_byte (s : string) : option (N * string) :=
  match s with
  | String "%" (String h (String l rest)) =>
      match hex_value h, hex_value l with
      | Some a, Some b => Some (16 * a + b, rest)%N
      | _, _ => None
      end
  | String c rest => Some (N_of_ascii c, rest)
  | EmptyString => None
  end.

(** The character at the head of a quoted text, and what follows it. *)
Definition read_char (s : string) : option (ascii * string) :=
  match read_byte s with
  | Some (b, rest) =>
      if (b <? 128)%N then Some (ascii_of_N b, rest)
      else match read_byte rest with
           | Some (b2, rest2) =>
               Some (ascii_of_N ((b - 192) * 64 + (b2 - 128)), rest2)
           | None => None
           end
  | None => None
  end.

End Url.

(** [get_token]: the ["access_token"] of the answer; [None] when the call
    raises: the request raises, [raise_for_status] finds a status from 400
    to 599, or the body has no token. *)
Definition get_token (r : reply (option string)) : option string :=
  match r with
  | Raised _ => None
  | Http status body =>
      if (400 <=? status) && (status <? 600) then None else body
  end.

(** ** [main] *)

(** The four settings read from the environment; [None] is a variable
    that is not set. *)
Record settings : Type := mk_settings
  { CLIENT_ID : option string;
    CLIENT_SECRET : option string;
    PROJECT_ID : option string;
    ROOT_FOLDER_URN : option string }.

(** Truth value of what [os.getenv] gives. *)
Definition is_set (v : option string) : bool :=
  match v with
  | Some s => Py.truthy s
  | None => false
  end.

(** How a run ends. *)
Inductive run : Type :=
| missing_variables
| token_raised
| no_files_found
| cancelled
| completed (st : state).

(** [token_reply] answers the token request, [root] the listing of the
    root folder and [choice] is what the operator types at the prompt. *)
Definition main (env : settings) (use_excel : bool) (excel : option DataFrame)
  (token_reply : reply (option string)) (root : listing) (choice : string)
  (R : remote) : run :=
  if negb (is_set (CLIENT_ID env) && is_set (CLIENT_SECRET env)
           && is_set (PROJECT_ID env) && is_set (ROOT_FOLDER_URN env))
  then missing_variables
  else
    match get_token token_reply with
    | None => token_raised
    | Some token =>
        let all_files := get_all_files_recursive root EmptyString in
        if (List.length all_files =? 0)%nat then no_files_found
        else if negb (String.eqb (Py.lower choice) "y") then cancelled
        else completed (main_loop use_excel excel R all_files)
    end.

(** *** Notions for the further properties *)

Definition is_tip_lookup (c : call) : bool :=
  match c with tip_lookup _ => true | _ => false end.

Definition is_update_post (c : call) : bool :=
  match c with batch_update_post _ _ => true | _ => false end.

(** The version lookups and the updates a state has sent. *)
Definition tips (st : state) : nat :=
  List.length (filter is_tip_lookup (calls st)).

Definition posts (st : state) : nat :=
  List.length (filter is_update_post (calls st)).

(** The record of a file the loop skips for [reason]. *)
Definition skipped_record (reason : string) (f : file_info) : result :=
  mk_result (fi_path f) (skipped reason).

(** What stands behind a success record of [n] attributes: an update that
    was posted for a non-empty version with a payload of [n] entries, one
    at least, and that the service answered with 200. *)
Definition backed (R : remote) (st : state) (r : result) : Prop :=
  forall n, status r = success n ->
            (1 <= n)%nat
            /\ exists v p,
                v <> EmptyString /\ List.length p = n
                /\ (exists body, batch_update R v p = Http 200 body)
                /\ In (batch_update_post v p) (calls st).

(** The text is made of decimal digits. *)
Fixpoint all_digits (s : string) : bool :=
  match s with
  | EmptyString => true
  | String c r => Strptime.is_digit c && all_digits r
  end.

(** No character of the text is white space. *)
Fixpoint no_space (s : string) : bool :=
  match s with
  | EmptyString => true
  | String c r => negb (Py.isspace c) && no_space r
  end.

(** The text begins with a white-space character. *)
Definition starts_with_space (s : string) : bool :=
  match s with
  | String c _ => Py.isspace c
  | EmptyString => false
  end.

(** The text does not begin and does not end with white space. *)
Definition trimmed (s : string) : Prop := Py.strip s = s.

(** A project id with its prefix, a version URN with reserved characters,
    and a one-row frame. *)
Definition sample_project : string := "b.2f3a-77".

Definition sample_version : string :=
  "urn:adsk.wipprod:fs.file:vf.abc?version=2".

Definition bulk_frame : DataFrame :=
  mk_frame ["Contractor"; "Planned End"]
           [[("Contractor", Str " ACME "); ("Planned End", Int 45000)]].

Definition all_set : settings :=
  mk_settings (Some "id") (Some "secret") (Some "b.2f3a-77")
              (Some "urn:adsk.wipprod:fs.folder:co.root").

(** * Properties *)

Open Scope list_scope.

(** ** The tree walker *)

Section ItemInduction.

Variable P : item -> Prop.

Hypothesis raised_case :
  forall ty n i e, P (Item ty n i (Raised e)).
Hypothesis no_data_case :
  forall ty n i status, P (Item ty n i (Http status None)).
Hypothesis data_case :
  forall ty n i status data,
    Forall P data -> P (Item ty n i (Http status (Some data))).

(** Induction on an entry whose listing holds entries again. *)
Lemma item_induction : forall it, P it.
Proof.
  fix IH 1.
  intros [ty n i [e | status [data | ]]].
  - apply raised_case.
  - apply data_case.
    induction data as [| x rest IHrest].
    + constructor.
    + constructor; [apply IH | exact IHrest].
  - apply no_data_case.
Qed.

End ItemInduction.

(** The inner loop of [visit_item] is [for_items]. *)
Lemma visit_item_loop (p : string) (data : list item) :
  (fix for_items (contents : list item) : list file_info :=
     match contents with
     | [] => []
     | x :: rest => (visit_item p x ++ for_items rest)%list
     end) data = for_items p data.
Proof.
  induction data as [| x rest IH]; simpl; [reflexivity | now rewrite IH].
Qed.

(** A folder entry adds what the recursive call on its listing returns,
    with the path extended by its name. *)
Lemma visit_folder (p ty : string) (n : option string) (i : string)
  (sub : listing) :
  String.eqb ty "items" = false ->
  String.eqb ty "folders" = true ->
  visit_item p (Item ty n i sub)
  = get_all_files_recursive sub (join_path p (display_name n)).
Proof.
  intros Hf Hd. unfold get_all_files_recursive, list_folder_contents.
  simpl. rewrite Hf, Hd.
  destruct sub as [e | status [data | ]]; try reflexivity.
  destruct (status =? 200); [apply visit_item_loop | reflexivity].
Qed.

Lemma visit_file (p ty : string) (n : option string) (i : string)
  (sub : listing) :
  String.eqb ty "items" = true ->
  visit_item p (Item ty n i sub)
  = [mk_file_info i (display_name n) (join_path p (display_name n))].
Proof.
  intros Hf. simpl. now rewrite Hf.
Qed.

Lemma visit_other (p ty : string) (n : option string) (i : string)
  (sub : listing) :
  String.eqb ty "items" = false ->
  String.eqb ty "folders" = false ->
  visit_item p (Item ty n i sub) = [].
Proof.
  intros Hf Hd. simpl. now rewrite Hf, Hd.
Qed.

Lemma for_items_app (p : string) (l1 l2 : list item) :
  for_items p (l1 ++ l2) = (for_items p l1 ++ for_items p l2)%list.
Proof.
  induction l1 as [| x rest IH]; simpl; [reflexivity |].
  now rewrite IH, app_assoc.
Qed.

Lemma failed_listing_is_empty (r : listing) :
  listing_failed r -> list_folder_contents r = [].
Proof.
  destruct r as [e | status [data | ]]; simpl; try reflexivity.
  intros H. destruct (Z.eqb_spec status 200); [contradiction | reflexivity].
Qed.

(** What an entry adds is in what the loop returns. *)
Lemma visited_is_returned (p : string) (data : list item) (it : item)
  (f : file_info) :
  In it data -> In f (visit_item p it) -> In f (for_items p data).
Proof.
  induction data as [| x rest IH]; [contradiction |].
  cbn [for_items]. intros [-> | Hin] Hf; apply in_or_app; [now left |].
  right. now apply IH.
Qed.

(** Over FILE entries alone the loop returns one record for each, in
    order. *)
Lemma for_items_of_files (p : string) (data : list item) :
  Forall (fun it => is_file it = true) data ->
  for_items p data
  = map (fun it => match it with
                   | Item _ n' i' _ =>
                       mk_file_info i' (display_name n')
                                    (join_path p (display_name n'))
                   end) data.
Proof.
  induction 1 as [| [ty n' i' c'] rest Hx _ IH]; [reflexivity |].
  cbn [for_items map]. rewrite IH. cbn in Hx.
  now rewrite visit_file by exact Hx.
Qed.

(** C6: a folder whose listing fails, for whatever reason (the request
    raises, the status is not 200, the body has no data), gives no file:
    the walk of that folder returns the empty list instead of raising, and
    the loop over the entries of its parent goes on with the entries
    after it.  Every FILE entry beside the folder, before or after it, has
    its record in the result, and so has every file found under a folder
    beside it; when the entries beside it are all FILE entries, the result
    is exactly their records, in order. *)
Theorem failed_listing_contributes_nothing
  (sub : listing) (p : string) (n : option string) (i : string)
  (before after : list item) :
  listing_failed sub ->
  get_all_files_recursive sub p = []
  /\ for_items p (before ++ Item "folders" n i sub :: after)
     = (for_items p before ++ for_items p after)%list
  /\ get_all_files_recursive
       (Http 200 (Some (before ++ Item "folders" n i sub :: after))) p
     = (get_all_files_recursive (Http 200 (Some before)) p
        ++ get_all_files_recursive (Http 200 (Some after)) p)%list
  /\ (forall ty n' i' c',
         String.eqb ty "items" = true ->
         In (Item ty n' i' c') (before ++ after) ->
         In (mk_file_info i' (display_name n') (join_path p (display_name n')))
            (get_all_files_recursive
               (Http 200 (Some (before ++ Item "folders" n i sub :: after)))
               p))
  /\ (forall n' i' sub' f,
         In (Item "folders" n' i' sub') (before ++ after) ->
         In f (get_all_files_recursive sub' (join_path p (display_name n'))) ->
         In f (get_all_files_recursive
                 (Http 200 (Some (before ++ Item "folders" n i sub :: after)))
                 p))
  /\ (Forall (fun it => is_file it = true) (before ++ after) ->
      get_all_files_recursive
        (Http 200 (Some (before ++ Item "folders" n i sub :: after))) p
      = map (fun it => match it with
                       | Item _ n' i' _ =>
                           mk_file_info i' (display_name n')
                                        (join_path p (display_name n'))
                       end) (before ++ after)).
Proof.
  intros Hfail.
  assert (Hsub : forall q, get_all_files_recursive sub q = []).
  { intros q. unfold get_all_files_recursive.
    now rewrite (failed_listing_is_empty sub Hfail). }
  assert (Hloop : for_items p (before ++ Item "folders" n i sub :: after)
                  = (for_items p before ++ for_items p after)%list).
  { rewrite for_items_app. f_equal.
    change (for_items p (Item "folders" n i sub :: after))
      with (visit_item p (Item "folders" n i sub) ++ for_items p after)%list.
    rewrite visit_folder by reflexivity.
    now rewrite Hsub. }
  assert (Hwalk : get_all_files_recursive
                    (Http 200 (Some (before ++ Item "folders" n i sub :: after)))
                    p
                  = for_items p (before ++ after)).
  { unfold get_all_files_recursive. cbn [list_folder_contents Z.eqb Pos.eqb].
    now rewrite Hloop, for_items_app. }
  split; [apply Hsub | split; [exact Hloop | split; [| split; [| split]]]].
  - unfold get_all_files_recursive. simpl. exact Hloop.
  - intros ty n' i' c' Hty Hin. rewrite Hwalk.
    apply (visited_is_returned p _ (Item ty n' i' c')); [exact Hin |].
    rewrite visit_file by exact Hty. now left.
  - intros n' i' sub' f Hin Hf. rewrite Hwalk.
    apply (visited_is_returned p _ (Item "folders" n' i' sub')); [exact Hin |].
    now rewrite visit_folder by reflexivity.
  - intros Hfiles. rewrite Hwalk. now apply for_items_of_files.
Qed.

(** The scenario of a failing subfolder: with B unreadable, the walk of A
    returns x.pdf, and so does the walk from the root. *)
Lemma failed_listing_witness :
  listing_failed (Http 503 None)
  /\ get_all_files_recursive
       (Http 200 (Some ([] ++ Item "folders" (Some "B") "fb" (Http 503 None)
                           :: [Item "items" (Some "x.pdf") "ix" (Raised "")])))
       "A"
     = [mk_file_info "ix" "x.pdf" "A/x.pdf"]
  /\ get_all_files_recursive (scenario_tree (Http 503 None)) ""
     = [mk_file_info "ix" "x.pdf" "A/x.pdf"].
Proof.
  split; [exact I | split; [| reflexivity]].
  refine (proj2 (proj2 (proj2 (proj2 (proj2
            (failed_listing_contributes_nothing
               (Http 503 None) "A" (Some "B") "fb" []
               [Item "items" (Some "x.pdf") "ix" (Raised "")] I))))) _).
  repeat constructor.
Defined.

(** *** Paths *)

Lemma truthy_app (a b : string) :
  Py.truthy a = true -> Py.truthy (a ++ b)%string = true.
Proof.
  destruct a; simpl; [discriminate | reflexivity].
Qed.

Lemma string_app_assoc (a b c : string) :
  ((a ++ b) ++ c = a ++ (b ++ c))%string.
Proof.
  induction a as [| x a IH]; simpl; [reflexivity | now rewrite IH].
Qed.

Lemma concat_cons (x : string) (l : list string) :
  l <> [] -> String.concat "/" (x :: l) = (x ++ "/" ++ String.concat "/" l)%string.
Proof.
  destruct l; [congruence | reflexivity].
Qed.

(** Under a non-empty prefix every further name is joined with a slash. *)
Lemma join_under_prefix (rest : list string) (cur n : string) :
  Py.truthy cur = true ->
  join_path (fold_left join_path rest cur) n
  = (cur ++ "/" ++ slash_join (rest ++ [n]))%string.
Proof.
  revert cur. induction rest as [| y r IH]; intros cur Hcur.
  - cbn [fold_left app]. unfold join_path. now rewrite Hcur.
  - cbn [fold_left].
    replace (join_path cur y) with (cur ++ "/" ++ y)%string
      by (unfold join_path; now rewrite Hcur).
    rewrite IH by (now apply truthy_app).
    unfold slash_join. change ((y :: r) ++ [n]) with (y :: (r ++ [n])).
    rewrite concat_cons by (destruct r; discriminate).
    now rewrite !string_app_assoc.
Qed.

(** The path the walk gives a file: the join of the names above it, the
    leading empty ones dropped, and its own. *)
Lemma join_walked_path (ancestors : list string) (n : string) :
  join_path (walked_path ancestors) n = trimmed_path ancestors n.
Proof.
  unfold walked_path, trimmed_path.
  induction ancestors as [| x rest IH].
  - reflexivity.
  - destruct x as [| c x'].
    + exact IH.
    + simpl drop_leading_empty.
      change (fold_left join_path (String c x' :: rest) "")
        with (fold_left join_path rest (String c x')).
      rewrite join_under_prefix by reflexivity.
      unfold slash_join.
      change ((String c x' :: rest) ++ [n]) with (String c x' :: (rest ++ [n])).
      now rewrite concat_cons by (destruct rest; discriminate).
Qed.

Lemma walked_path_snoc (ancestors : list string) (n : string) :
  walked_path (ancestors ++ [n]) = join_path (walked_path ancestors) n.
Proof.
  unfold walked_path. now rewrite fold_left_app.
Qed.

Lemma drop_leading_empty_id (names : list string) :
  Forall (fun a => a <> EmptyString) names -> drop_leading_empty names = names.
Proof.
  destruct 1 as [| x l Hx _]; [reflexivity |].
  destruct x; [congruence | reflexivity].
Qed.

(** *** The walk against the entries of the tree *)

Lemma under_is_flat_map (anc : list string) (data : list item) :
  (fix under (l : list item) : list (list string * item) :=
     match l with
     | [] => []
     | x :: rest => entries anc x ++ under rest
     end) data = flat_map (entries anc) data.
Proof.
  induction data as [| x rest IH]; simpl; [reflexivity | now rewrite IH].
Qed.

Lemma entries_unfold (anc : list string) (ty : string) (n : option string)
  (i : string) (sub : listing) :
  entries anc (Item ty n i sub)
  = (anc, Item ty n i sub)
    :: (if String.eqb ty "folders"
        then flat_map (entries (anc ++ [display_name n]))
                      (list_folder_contents sub)
        else []).
Proof.
  simpl. f_equal.
  destruct (String.eqb ty "folders"); [| reflexivity].
  destruct sub as [e | status [data | ]]; try reflexivity.
  simpl. destruct (status =? 200); [apply under_is_flat_map | reflexivity].
Qed.

Lemma for_items_walks (data : list item) (anc : list string) :
  Forall walks_its_files data ->
  for_items (walked_path anc) data
  = map (file_of trimmed_path)
        (filter (fun e => is_file (snd e)) (flat_map (entries anc) data)).
Proof.
  induction 1 as [| x rest Hx _ IH]; [reflexivity |].
  simpl. now rewrite filter_app, map_app, Hx, IH.
Qed.

Lemma items_is_not_folders (ty : string) :
  String.eqb ty "items" = true -> String.eqb ty "folders" = false.
Proof.
  intros H. apply String.eqb_eq in H. now subst ty.
Qed.

Lemma visit_item_walks (ty : string) (n : option string) (i : string)
  (sub : listing) :
  Forall walks_its_files (list_folder_contents sub) ->
  walks_its_files (Item ty n i sub).
Proof.
  intros Hsub anc. rewrite entries_unfold. simpl filter.
  destruct (String.eqb ty "items") eqn:Hf.
  - rewrite visit_file by exact Hf.
    rewrite (items_is_not_folders ty Hf). simpl.
    now rewrite join_walked_path.
  - destruct (String.eqb ty "folders") eqn:Hd.
    + rewrite visit_folder by assumption.
      unfold get_all_files_recursive. rewrite <- walked_path_snoc.
      now apply for_items_walks.
    + now rewrite visit_other.
Qed.

Lemma every_item_walks (it : item) : walks_its_files it.
Proof.
  induction it as [ty n i e | ty n i status | ty n i status data IH]
    using item_induction; apply visit_item_walks; simpl; auto.
  destruct (status =? 200); [exact IH | constructor].
Qed.

(** C5, amended: for every folder tree the walk returns exactly the
    FILE-tagged entries of the tree (no folder, no entry of another type),
    each once, in depth-first pre-order; the path of a file is the
    '/'-join of the display names of the folders above it and its own
    name, where the folder names that are empty and stand before the
    first non-empty one are left out (a separator is written only after a
    non-empty prefix).  In a tree where no folder above a file has an
    empty name this is the plain join. *)
Theorem walk_returns_file_entries (root : listing) :
  get_all_files_recursive root "" = map (file_of trimmed_path) (file_entries root)
  /\ Forall (fun e => is_file (snd e) = true) (file_entries root)
  /\ List.length (get_all_files_recursive root "")
     = List.length (file_entries root)
  /\ ((forall e, In e (file_entries root) ->
                 Forall (fun a => a <> EmptyString) (fst e)) ->
      get_all_files_recursive root ""
      = map (file_of joined_path) (file_entries root)).
Proof.
  assert (Hwalk : get_all_files_recursive root ""
                  = map (file_of trimmed_path) (file_entries root)).
  { unfold get_all_files_recursive, file_entries, tree_entries.
    change EmptyString with (walked_path []).
    apply for_items_walks. apply Forall_forall. intros it _.
    apply every_item_walks. }
  repeat split.
  - exact Hwalk.
  - unfold file_entries. apply Forall_forall. intros e He.
    now apply filter_In in He.
  - now rewrite Hwalk, length_map.
  - intros Hnames. rewrite Hwalk. apply map_ext_in. intros [anc it] He.
    destruct it as [ty n i sub]. unfold file_of, trimmed_path, joined_path.
    now rewrite (drop_leading_empty_id anc (Hnames _ He)).
Qed.

(** The scenario tree: x.pdf under A, y.pdf under A/B. *)
Lemma walk_returns_file_entries_witness :
  get_all_files_recursive (scenario_tree b_contents) ""
  = map (file_of joined_path) (file_entries (scenario_tree b_contents)).
Proof.
  apply (walk_returns_file_entries (scenario_tree b_contents)).
  intros e He. vm_compute in He.
  destruct He as [<- | [<- | []]]; repeat constructor; discriminate.
Defined.

(** C5 as stated fails under a folder with an empty display name: the file
    x under the top-level folder "" is given the path "x", where the join
    of the names above it and its own is "/x". *)
Lemma walk_path_is_not_the_plain_join :
  get_all_files_recursive unnamed_folder_tree "" = [mk_file_info "i0" "x" "x"]
  /\ map (file_of joined_path) (file_entries unnamed_folder_tree)
     = [mk_file_info "i0" "x" "/x"]
  /\ get_all_files_recursive unnamed_folder_tree ""
     <> map (file_of joined_path) (file_entries unnamed_folder_tree).
Proof.
  repeat split; try reflexivity.
  vm_compute. discriminate.
Qed.

(** ** The loop of [main] *)

Section LoopFacts.

Variables (use_excel : bool) (excel : option DataFrame) (R : remote).

(** What one iteration does to the record: one outcome for the file is
    appended and the counter of its kind goes up by one. *)
Lemma process_file_appends (st : state) (f : file_info) :
  exists o,
    let st' := process_file use_excel excel R st f in
    results st' = results st ++ [mk_result (fi_path f) o]
    /\ success_count st'
       = (success_count st + count is_success [mk_result (fi_path f) o])%nat
    /\ failed_count st'
       = (failed_count st + count is_failed [mk_result (fi_path f) o])%nat
    /\ skipped_count st'
       = (skipped_count st + count is_skipped [mk_result (fi_path f) o])%nat.
Proof.
  unfold process_file.
  destruct use_excel.
  - destruct (build_attributes_from_excel excel (fi_name f) (fi_id f))
      as [p source].
    destruct (not_payload p).
    + exists (skipped (method_text source)). cbn. repeat split; lia.
    + unfold update_file.
      destruct (not_version _).
      * eexists (failed _). cbn. repeat split; lia.
      * destruct (update_custom_attributes _) as [[|] message].
        -- eexists (success _). cbn. repeat split; lia.
        -- eexists (failed _). cbn. repeat split; lia.
  - exists (skipped "No Excel file"). cbn. repeat split; lia.
Qed.

Lemma count_app (p : result -> bool) (l1 l2 : list result) :
  count p (l1 ++ l2) = (count p l1 + count p l2)%nat.
Proof.
  unfold count. now rewrite filter_app, length_app.
Qed.

(** The loop from any state. *)
Lemma loop_invariant (files : list file_info) (st : state) :
  let st' := fold_left (process_file use_excel excel R) files st in
  map file (results st') = map file (results st) ++ map fi_path files
  /\ (success_count st' + count is_success (results st)
      = success_count st + count is_success (results st'))%nat
  /\ (failed_count st' + count is_failed (results st)
      = failed_count st + count is_failed (results st'))%nat
  /\ (skipped_count st' + count is_skipped (results st)
      = skipped_count st + count is_skipped (results st'))%nat.
Proof.
  revert st. induction files as [| f rest IH]; intros st.
  - cbn. rewrite app_nil_r. repeat split; reflexivity.
  - cbn [fold_left].
    destruct (process_file_appends st f) as [o (Hr & Hs & Hf & Hk)].
    cbv zeta in Hr, Hs, Hf, Hk.
    specialize (IH (process_file use_excel excel R st f)).
    cbv zeta in IH. destruct IH as (IHr & IHs & IHf & IHk).
    rewrite Hr, Hs, Hf, Hk, !count_app in *.
    rewrite IHr, map_app, <- app_assoc. cbn [map file app].
    repeat split; try reflexivity; lia.
Qed.

Lemma count_partition (l : list result) :
  (count is_success l + count is_failed l + count is_skipped l)%nat
  = List.length l.
Proof.
  unfold count, is_success, is_failed, is_skipped.
  induction l as [| [p [a | r | r]] rest IH]; cbn in *; lia.
Qed.

End LoopFacts.

(** C9: the loop records one outcome per file found, in the order of the
    traversal; each counter is the number of outcomes of its kind, so the
    three sum to the number of files.  Every failure of a request is a
    value the loop records, whatever the spreadsheet and the service
    answer: the loop reaches the end of the list. *)
Theorem one_outcome_per_file
  (use_excel : bool) (excel : option DataFrame) (R : remote)
  (all_files : list file_info) :
  let st := main_loop use_excel excel R all_files in
  map file (results st) = map fi_path all_files
  /\ List.length (results st) = List.length all_files
  /\ success_count st = count is_success (results st)
  /\ failed_count st = count is_failed (results st)
  /\ skipped_count st = count is_skipped (results st)
  /\ (success_count st + failed_count st + skipped_count st)%nat
     = List.length all_files.
Proof.
  intros st.
  destruct (loop_invariant use_excel excel R all_files initial_state)
    as (Hr & Hs & Hf & Hk).
  fold (main_loop use_excel excel R all_files) in Hr, Hs, Hf, Hk.
  fold st in Hr, Hs, Hf, Hk. cbn in Hr, Hs, Hf, Hk.
  assert (Hlen : List.length (results st) = List.length all_files).
  { rewrite <- (length_map file), Hr. apply length_map. }
  pose proof (count_partition (results st)).
  repeat split; try assumption; lia.
Qed.

(** *** Empty payloads *)

Lemma build_attributes_matched (df : DataFrame) (file_name item_urn : string)
  (r : row) (m : match_method) :
  find_row file_name item_urn df = Some (r, m) ->
  build_attributes_from_excel (Some df) file_name item_urn
  = (Some (build_payload r (columns df)), m).
Proof.
  intros H. unfold build_attributes_from_excel. now rewrite H.
Qed.




(** ** The matcher *)

Lemma truthy_false (s : string) : Py.truthy s = false <-> s = EmptyString.
Proof.
  destruct s; simpl; split; congruence.
Qed.

Lemma truthy_true (s : string) : Py.truthy s = true <-> s <> EmptyString.
Proof.
  destruct s; simpl; split; congruence.
Qed.

(** The pass over "acc_file_id" finds nothing exactly when no row
    matches. *)
Lemma scan_none (fn iu : string) (rs : list row) :
  scan_acc_file_id fn iu rs = None
  <-> Forall (fun r => acc_row_matches fn iu r = None) rs.
Proof.
  induction rs as [| r rest IH]; simpl.
  - split; [constructor | reflexivity].
  - destruct (acc_row_matches fn iu r) eqn:Hr.
    + split; [discriminate |]. intros H. inversion H; congruence.
    + rewrite IH. split; [now constructor |]. intros H. now inversion H.
Qed.

(** What the pass finds is the first row that matches, under the method
    of that row. *)
Lemma scan_some (fn iu : string) (rs : list row) (r : row) (m : match_method) :
  scan_acc_file_id fn iu rs = Some (r, m) ->
  exists before after,
    rs = before ++ r :: after
    /\ Forall (fun x => acc_row_matches fn iu x = None) before
    /\ acc_row_matches fn iu r = Some m.
Proof.
  induction rs as [| x rest IH]; simpl; [discriminate |].
  destruct (acc_row_matches fn iu x) eqn:Hx.
  - intros [= <- <-]. exists [], rest. repeat split; [constructor | exact Hx].
  - intros H. destruct (IH H) as (before & after & -> & Hb & Hr).
    exists (x :: before), after. repeat split; [now constructor | exact Hr].
Qed.

Lemma find_none_iff {A : Type} (p : A -> bool) (l : list A) :
  find p l = None <-> ~ Exists (fun x => p x = true) l.
Proof.
  split.
  - intros H Hex. apply Exists_exists in Hex as (x & Hin & Hp).
    pose proof (find_none p l H x Hin). congruence.
  - intros H. destruct (find p l) as [x |] eqn:Hf; [| reflexivity].
    apply find_some in Hf. exfalso. apply H. apply Exists_exists. eauto.
Qed.

Lemma scan_none_iff (fn iu : string) (rs : list row) :
  scan_acc_file_id fn iu rs = None
  <-> ~ Exists (fun r => acc_row_matches fn iu r <> None) rs.
Proof.
  rewrite scan_none. split.
  - intros H Hex. apply Exists_exists in Hex as (x & Hin & Hx).
    rewrite Forall_forall in H. auto.
  - intros H. apply Forall_forall. intros x Hin.
    destruct (acc_row_matches fn iu x) eqn:Hx; [| reflexivity].
    exfalso. apply H. apply Exists_exists. exists x. split; congruence.
Qed.

(** A row matches in the pass under one of the two methods of the pass. *)
Lemma acc_row_methods (fn iu : string) (r : row) (m : match_method) :
  acc_row_matches fn iu r = Some m ->
  (m = urn
   /\ looks_like_urn (cell_text r "acc_file_id") = true
   /\ as_urn (cell_text r "acc_file_id") = iu)
  \/ (m = filename_in_acc_file_id
      /\ looks_like_urn (cell_text r "acc_file_id") = false
      /\ filename_test fn (cell_text r "acc_file_id") = true).
Proof.
  unfold acc_row_matches. fold (cell_text r "acc_file_id").
  destruct (Py.truthy (cell_text r "acc_file_id")); [| discriminate].
  cbn [negb].
  destruct (looks_like_urn (cell_text r "acc_file_id")).
  - destruct (String.eqb_spec (as_urn (cell_text r "acc_file_id")) iu);
      [| discriminate].
    intros [= <-]. now left.
  - destruct (filename_test fn (cell_text r "acc_file_id")); [| discriminate].
    intros [= <-]. now right.
Qed.

(** With a match in the name column the result is the first row that
    matches there. *)
Lemma find_row_by_name (df : DataFrame) (fn iu : string) :
  name_match_exists fn df ->
  exists r, find (name_row_matches fn) (rows df) = Some r
            /\ find_row fn iu df = Some (r, file_name_column).
Proof.
  intros [Hcol Hex]. unfold find_row. rewrite Hcol.
  destruct (find (name_row_matches fn) (rows df)) as [r |] eqn:Hf.
  - exists r. split; [reflexivity |]. cbn. now destruct (rows df) as [| ? [| ? ?]].
  - apply find_none_iff in Hf. contradiction.
Qed.

(** Without one, the pass over "acc_file_id" decides, then the number of
    rows. *)
Lemma find_row_without_name (df : DataFrame) (fn iu : string) :
  ~ name_match_exists fn df ->
  find_row fn iu df
  = match (if has_column df "acc_file_id"
           then scan_acc_file_id fn iu (rows df) else None), rows df with
    | None, [r] => Some (r, single_row)
    | found, _ => found
    end.
Proof.
  intros Hno. unfold find_row.
  assert (Hfind : (if has_column df "file_name"
                   then option_map (fun r => (r, file_name_column))
                                   (find (name_row_matches fn) (rows df))
                   else None) = None).
  { destruct (has_column df "file_name") eqn:Hcol; [| reflexivity].
    destruct (find (name_row_matches fn) (rows df)) as [r |] eqn:Hf;
      [| reflexivity].
    exfalso. apply Hno. split; [exact Hcol |].
    apply find_some in Hf. apply Exists_exists. eauto. }
  rewrite Hfind.
  destruct (if has_column df "acc_file_id"
            then scan_acc_file_id fn iu (rows df) else None);
    now destruct (rows df) as [| ? [| ? ?]].
Qed.

Lemma no_id_match (df : DataFrame) (fn iu : string) :
  ~ id_match_exists fn iu df <->
  (if has_column df "acc_file_id"
   then scan_acc_file_id fn iu (rows df) else None) = None.
Proof.
  unfold id_match_exists.
  destruct (has_column df "acc_file_id").
  - rewrite scan_none_iff. tauto.
  - split; [reflexivity |]. intros _ [H _]. discriminate.
Qed.

(** A match in the pass over "acc_file_id", spelt out on the text of the
    cell: the text is not empty, and either it holds a marker and, with
    "urn:" before it when it does not begin with it, is the id of the
    item, or it holds no marker and passes one of the three comparisons
    with the name of the file. *)
Lemma acc_row_match_spelt_out (fn iu : string) (r : row) (m : match_method) :
  acc_row_matches fn iu r = Some m ->
  cell_text r "acc_file_id" <> EmptyString
  /\ ((m = urn
       /\ Py.contains "urn:adsk" (cell_text r "acc_file_id")
          || Py.contains "dm.lineage" (cell_text r "acc_file_id") = true
       /\ (if String.prefix "urn:" (cell_text r "acc_file_id")
           then cell_text r "acc_file_id"
           else ("urn:" ++ cell_text r "acc_file_id")%string) = iu)
      \/ (m = filename_in_acc_file_id
          /\ Py.contains "urn:adsk" (cell_text r "acc_file_id")
             || Py.contains "dm.lineage" (cell_text r "acc_file_id") = false
          /\ (cell_text r "acc_file_id" = fn
              \/ name_base (cell_text r "acc_file_id") = name_base fn
              \/ cell_text r "acc_file_id" = name_base fn))).
Proof.
  unfold acc_row_matches. fold (cell_text r "acc_file_id").
  destruct (Py.truthy (cell_text r "acc_file_id")) eqn:Ht; [| discriminate].
  cbn [negb]. intros H. apply truthy_true in Ht. split; [exact Ht |].
  unfold looks_like_urn in H.
  destruct (Py.contains "urn:adsk" (cell_text r "acc_file_id")
            || Py.contains "dm.lineage" (cell_text r "acc_file_id")).
  - left. unfold as_urn, Py.startswith in H.
    destruct (String.eqb_spec
                (if negb (String.prefix "urn:" (cell_text r "acc_file_id"))
                 then ("urn:" ++ cell_text r "acc_file_id")%string
                 else cell_text r "acc_file_id") iu) as [He |];
      [| discriminate].
    injection H as <-. repeat split.
    now destruct (String.prefix "urn:" (cell_text r "acc_file_id")).
  - right. unfold filename_test in H.
    destruct (String.eqb_spec (cell_text r "acc_file_id") fn);
      destruct (String.eqb_spec (name_base (cell_text r "acc_file_id"))
                                (name_base fn));
      destruct (String.eqb_spec (cell_text r "acc_file_id") (name_base fn));
      cbn [orb] in H; try discriminate; injection H as <-; repeat split; auto.
Qed.

(** C3, amended: the matcher tries the name column first, then makes one
    pass over the "acc_file_id" column in row order, then falls back to
    the single row.  A file that has a match in the "file_name" column
    resolves by that column, by the first row that matches there, whatever
    the "acc_file_id" column holds.  Otherwise the first row of the pass
    that matches under the reading of its own text decides, as a URN when
    the text holds a marker and as a file name when it holds none: the two
    readings have no rank between them, so a file-name row wins over a URN
    row that comes after it.  The single row of a one-row dataset is used
    only when no row matched by name or in that pass, and it is used then;
    with no match and not exactly one row there is no result. *)
Theorem strategies_in_priority_order
  (df : DataFrame) (file_name item_urn : string) :
  (name_match_exists file_name df ->
   exists r, find (name_row_matches file_name) (rows df) = Some r
             /\ find_row file_name item_urn df = Some (r, file_name_column)
             /\ snd (build_attributes_from_excel (Some df) file_name item_urn)
                = file_name_column)
  /\ (~ name_match_exists file_name df ->
      id_match_exists file_name item_urn df ->
      exists r m, find_row file_name item_urn df = Some (r, m)
                  /\ scan_acc_file_id file_name item_urn (rows df) = Some (r, m)
                  /\ (m = urn \/ m = filename_in_acc_file_id))
  /\ (~ name_match_exists file_name df ->
      id_match_exists file_name item_urn df ->
      exists before r after m,
        rows df = before ++ r :: after
        /\ Forall (fun x => acc_row_matches file_name item_urn x = None) before
        /\ find_row file_name item_urn df = Some (r, m)
        /\ cell_text r "acc_file_id" <> EmptyString
        /\ ((m = urn
             /\ Py.contains "urn:adsk" (cell_text r "acc_file_id")
                || Py.contains "dm.lineage" (cell_text r "acc_file_id") = true
             /\ (if String.prefix "urn:" (cell_text r "acc_file_id")
                 then cell_text r "acc_file_id"
                 else ("urn:" ++ cell_text r "acc_file_id")%string) = item_urn)
            \/ (m = filename_in_acc_file_id
                /\ Py.contains "urn:adsk" (cell_text r "acc_file_id")
                   || Py.contains "dm.lineage" (cell_text r "acc_file_id")
                   = false
                /\ (cell_text r "acc_file_id" = file_name
                    \/ name_base (cell_text r "acc_file_id")
                       = name_base file_name
                    \/ cell_text r "acc_file_id" = name_base file_name))))
  /\ (~ name_match_exists file_name df ->
      has_column df "acc_file_id" = true ->
      forall before r after m,
        rows df = before ++ r :: after ->
        Forall (fun x => acc_row_matches file_name item_urn x = None) before ->
        acc_row_matches file_name item_urn r = Some m ->
        find_row file_name item_urn df = Some (r, m))
  /\ (forall r, find_row file_name item_urn df = Some (r, single_row) ->
                rows df = [r]
                /\ ~ name_match_exists file_name df
                /\ ~ id_match_exists file_name item_urn df)
  /\ (forall r, rows df = [r] ->
                ~ name_match_exists file_name df ->
                ~ id_match_exists file_name item_urn df ->
                find_row file_name item_urn df = Some (r, single_row))
  /\ (List.length (rows df) <> 1%nat ->
      ~ name_match_exists file_name df ->
      ~ id_match_exists file_name item_urn df ->
      find_row file_name item_urn df = None).
Proof.
  split; [| split; [| split; [| split; [| split; [| split]]]]].
  - intros Hname.
    destruct (find_row_by_name df file_name item_urn Hname) as (r & Hf & Hr).
    exists r. repeat split; try assumption.
    now rewrite (build_attributes_matched _ _ _ _ _ Hr).
  - intros Hno [Hcol Hex]. rewrite (find_row_without_name _ _ _ Hno), Hcol.
    destruct (scan_acc_file_id file_name item_urn (rows df)) as [[r m] |] eqn:Hs.
    + exists r, m. split; [| split; [reflexivity |]].
      * now destruct (rows df) as [| ? [| ? ?]].
      * apply scan_some in Hs as (_ & _ & _ & _ & Hm).
        apply acc_row_methods in Hm. tauto.
    + apply scan_none_iff in Hs. contradiction.
  - intros Hno [Hcol Hex]. rewrite (find_row_without_name _ _ _ Hno), Hcol.
    destruct (scan_acc_file_id file_name item_urn (rows df)) as [[r m] |] eqn:Hs.
    + destruct (scan_some _ _ _ _ _ Hs) as (before & after & Hrows & Hb & Hm).
      exists before, r, after, m.
      split; [exact Hrows | split; [exact Hb | split]].
      * now destruct (rows df) as [| ? [| ? ?]].
      * now apply acc_row_match_spelt_out.
    + apply scan_none_iff in Hs. contradiction.
  - intros Hno Hcol before r after m Hrows Hb Hm.
    rewrite (find_row_without_name _ _ _ Hno), Hcol.
    assert (Hs : scan_acc_file_id file_name item_urn (rows df) = Some (r, m)).
    { rewrite Hrows. clear Hrows.
      induction Hb as [| x rest Hx _ IH]; cbn [app scan_acc_file_id].
      - now rewrite Hm.
      - now rewrite Hx. }
    rewrite Hs. now destruct (rows df) as [| ? [| ? ?]].
  - intros r Hr.
    assert (Hno : ~ name_match_exists file_name df).
    { intros Hname.
      destruct (find_row_by_name df file_name item_urn Hname) as (r' & _ & Hr').
      congruence. }
    rewrite (find_row_without_name _ _ _ Hno) in Hr.
    destruct (if has_column df "acc_file_id"
              then scan_acc_file_id file_name item_urn (rows df) else None)
      as [[r' m] |] eqn:Hs.
    + exfalso.
      assert (Hm : m = single_row)
        by (destruct (rows df) as [| ? [| ? ?]]; congruence).
      destruct (has_column df "acc_file_id"); [| discriminate].
      apply scan_some in Hs as (_ & _ & _ & _ & Hs).
      apply acc_row_methods in Hs. subst m.
      destruct Hs as [[? _] | [? _]]; discriminate.
    + apply no_id_match in Hs.
      destruct (rows df) as [| x [| ? ?]]; try discriminate.
      injection Hr as <-. tauto.
  - intros r Hrows Hno Hid. rewrite (find_row_without_name _ _ _ Hno).
    apply no_id_match in Hid. now rewrite Hid, Hrows.
  - intros Hlen Hno Hid. rewrite (find_row_without_name _ _ _ Hno).
    apply no_id_match in Hid. rewrite Hid.
    destruct (rows df) as [| x [| ? ?]]; try reflexivity.
    now contradiction Hlen.
Qed.

(** In [both_frame] the file x.pdf has a match in both columns, the one of
    "acc_file_id" in an earlier row; the name column decides.  In
    [mixed_frame], which has no name column, the item of the URN of the
    second row is matched by that row, as a URN. *)
Lemma strategies_in_priority_order_witness :
  id_match_exists "x.pdf" "urn:x" both_frame
  /\ (exists r,
         find (name_row_matches "x.pdf") (rows both_frame) = Some r
         /\ find_row "x.pdf" "urn:x" both_frame = Some (r, file_name_column)
         /\ snd (build_attributes_from_excel (Some both_frame) "x.pdf" "urn:x")
            = file_name_column)
  /\ find_row "y.pdf" "urn:adsk.wipprod:dm.lineage:abc" mixed_frame
     = Some ([("acc_file_id", Str "urn:adsk.wipprod:dm.lineage:abc");
              ("Location", Str "by urn")], urn).
Proof.
  split; [| split].
  - split; [reflexivity |]. apply Exists_cons_hd. vm_compute. discriminate.
  - apply (strategies_in_priority_order both_frame "x.pdf" "urn:x").
    split; [reflexivity |]. apply Exists_cons_tl, Exists_cons_hd. reflexivity.
  - refine (proj1 (proj2 (proj2 (proj2
              (strategies_in_priority_order
                 mixed_frame "y.pdf" "urn:adsk.wipprod:dm.lineage:abc"))))
              _ eq_refl
              [[("acc_file_id", Str "x.pdf"); ("Location", Str "by filename")]]
              _ [] urn eq_refl _ eq_refl).
    + intros [H _]. discriminate H.
    + repeat constructor.
Defined.

(** C3 as stated fails between the URN strategy and the file-name
    strategy: for the file x.pdf whose id is the URN of the second row of
    [mixed_frame], the URN strategy yields a match, the second row, and
    yet the file resolves by the first row, as a file name. *)
Lemma filename_row_wins_over_later_urn_row :
  acc_row_matches "x.pdf" "urn:adsk.wipprod:dm.lineage:abc"
                  [("acc_file_id", Str "urn:adsk.wipprod:dm.lineage:abc");
                   ("Location", Str "by urn")]
  = Some urn
  /\ In [("acc_file_id", Str "urn:adsk.wipprod:dm.lineage:abc");
         ("Location", Str "by urn")] (rows mixed_frame)
  /\ build_attributes_from_excel
       (Some mixed_frame) "x.pdf" "urn:adsk.wipprod:dm.lineage:abc"
     = (Some [mk_attribute 7374769 "by filename"], filename_in_acc_file_id).
Proof.
  repeat split. right. left. reflexivity.
Qed.

(** The one test a row gets in the pass, by the class of its text. *)
Lemma acc_row_by_class (fn iu : string) (r : row) :
  acc_row_matches fn iu r
  = if negb (Py.truthy (cell_text r "acc_file_id")) then None
    else if looks_like_urn (cell_text r "acc_file_id") then
      (if String.eqb (as_urn (cell_text r "acc_file_id")) iu
       then Some urn else None)
    else
      (if filename_test fn (cell_text r "acc_file_id")
       then Some filename_in_acc_file_id else None).
Proof.
  reflexivity.
Qed.



(** C2, amended: a row whose "acc_file_id" text is not empty and has no
    marker matches the file exactly when the text equals the file name, or
    the text without its extension equals the file name without its
    extension, or the text equals the file name without its extension.  (A
    text that equals the file name only once its own extension is taken
    off is covered by none of the three.) *)
Theorem filename_reading_matches_iff
  (file_name item_urn : string) (r : row) :
  let v := cell_text r "acc_file_id" in
  v <> EmptyString ->
  looks_like_urn v = false ->
  (acc_row_matches file_name item_urn r = Some filename_in_acc_file_id
   <-> (v = file_name
        \/ name_base v = name_base file_name
        \/ v = name_base file_name))
  /\ (acc_row_matches file_name item_urn r = None
      <-> ~ (v = file_name
             \/ name_base v = name_base file_name
             \/ v = name_base file_name)).
Proof.
  intros v Hv Hurn. rewrite acc_row_by_class. fold v.
  apply truthy_true in Hv. rewrite Hv, Hurn. cbn [negb].
  unfold filename_test.
  destruct (String.eqb_spec v file_name);
    destruct (String.eqb_spec (name_base v) (name_base file_name));
    destruct (String.eqb_spec v (name_base file_name));
    cbn; split; split; intros; try tauto; try discriminate;
    try reflexivity; exfalso; tauto.
Qed.

(** The text of [plain_row], "report.v2.pdf", against the file
    "report.v2.docx": the two agree once their extensions are off. *)
Lemma filename_reading_matches_iff_witness :
  acc_row_matches "report.v2.docx" "urn:x" plain_row
  = Some filename_in_acc_file_id.
Proof.
  apply (filename_reading_matches_iff "report.v2.docx" "urn:x" plain_row);
    [discriminate | reflexivity |].
  right. left. reflexivity.
Defined.

(** C2 as stated fails: the text "a.b.pdf" without its extension is "a.b",
    the full name of the file, and the row does not match; with a second
    row in the frame nothing matches the file. *)
Lemma stripped_value_against_full_name :
  cell_text (hd [] (rows dotted_frame)) "acc_file_id" = "a.b.pdf"
  /\ looks_like_urn "a.b.pdf" = false
  /\ name_base "a.b.pdf" = "a.b"
  /\ acc_row_matches "a.b" "urn:x" (hd [] (rows dotted_frame)) = None
  /\ build_attributes_from_excel (Some dotted_frame) "a.b" "urn:x"
     = (None, not_matched).
Proof.
  repeat split.
Qed.

(** *** Blank and missing cells *)

Lemma rstrip_keeps_ink (s : string) :
  has_ink s = true -> Py.rstrip s <> EmptyString.
Proof.
  induction s as [| c r IH]; simpl; [discriminate |].
  destruct (Py.isspace c); simpl.
  - intros H. specialize (IH H). now destruct (Py.rstrip r).
  - intros _. now destruct (Py.rstrip r).
Qed.

Lemma lstrip_keeps_ink (s : string) : has_ink (Py.lstrip s) = has_ink s.
Proof.
  induction s as [| c r IH]; simpl; [reflexivity |].
  destruct (Py.isspace c) eqn:Hc; simpl; [exact IH | now rewrite Hc].
Qed.

Lemma rstrip_blank (s : string) :
  has_ink s = false -> Py.rstrip s = EmptyString.
Proof.
  induction s as [| c r IH]; simpl; [reflexivity |].
  destruct (Py.isspace c); simpl; [| discriminate].
  intros H. now rewrite (IH H).
Qed.

(** Stripping leaves nothing exactly when the text is all white space. *)
Lemma strip_empty_iff (s : string) :
  Py.strip s = EmptyString <-> has_ink s = false.
Proof.
  unfold Py.strip. split.
  - intros H. destruct (has_ink s) eqn:Hs; [| reflexivity].
    exfalso. apply (rstrip_keeps_ink (Py.lstrip s)); [| exact H].
    now rewrite lstrip_keeps_ink.
  - intros H. apply rstrip_blank. now rewrite lstrip_keeps_ink.
Qed.

Lemma has_ink_app_r (a b : string) :
  has_ink b = true -> has_ink (a ++ b)%string = true.
Proof.
  intros Hb. induction a as [| c a IH]; simpl; [exact Hb |].
  rewrite IH. apply orb_true_r.
Qed.

Lemma uint_text_inked (d : Decimal.uint) :
  has_ink (NilZero.string_of_uint d) = true.
Proof.
  destruct d; reflexivity.
Qed.

(** The text of an integer is never blank. *)
Lemma int_text_inked (z : Z) : has_ink (Py.str_of_int z) = true.
Proof.
  unfold Py.str_of_int. destruct (Z.to_int z) as [d | d]; simpl.
  - apply uint_text_inked.
  - reflexivity.
Qed.

(** The text of a date-time is never blank. *)
Lemma date_text_inked (d : datetime) : has_ink (py_str (Date d)) = true.
Proof.
  simpl. apply has_ink_app_r. reflexivity.
Qed.

(** C10: a missing "file_name" or "acc_file_id" cell is read as the text
    "nan": the row matches by name exactly the files whose name, or name
    without its extension, is "nan", and in the pass over "acc_file_id" it
    matches those files as a file name.  The cells the matcher passes over
    are the text cells that are empty or white space only, and no others:
    a row with such a cell matches no file by that column. *)
Theorem missing_cell_reads_nan (file_name item_urn : string) (r : row) :
  (series_get r "file_name" (Str "") = NaN ->
   (name_row_matches file_name r = true
    <-> (file_name = "nan" \/ name_base file_name = "nan")))
  /\ (series_get r "acc_file_id" (Str "") = NaN ->
      (file_name = "nan" \/ name_base file_name = "nan") ->
      acc_row_matches file_name item_urn r = Some filename_in_acc_file_id)
  /\ (forall c, treated_as_absent c
                <-> exists s, c = Str s /\ has_ink s = false)
  /\ (treated_as_absent (series_get r "file_name" (Str "")) ->
      name_row_matches file_name r = false)
  /\ (treated_as_absent (series_get r "acc_file_id" (Str "")) ->
      acc_row_matches file_name item_urn r = None).
Proof.
  split; [| split; [| split; [| split]]].
  - intros Hnan. unfold name_row_matches. rewrite Hnan.
    change (Py.strip (py_str NaN)) with "nan". cbn [Py.truthy andb].
    rewrite orb_true_iff, !String.eqb_eq. split; intros [H | H]; auto.
  - intros Hnan Hname. unfold acc_row_matches. rewrite Hnan.
    change (Py.strip (py_str NaN)) with "nan".
    change (looks_like_urn "nan") with false.
    cbn [Py.truthy negb]. unfold filename_test.
    change (name_base "nan") with "nan".
    destruct Hname as [-> | ->].
    + reflexivity.
    + now rewrite String.eqb_refl, orb_true_r.
  - intros c. unfold treated_as_absent. rewrite strip_empty_iff. split.
    + destruct c as [| s | z | d].
      * discriminate.
      * intros H. now exists s.
      * cbn [py_str]. rewrite int_text_inked. discriminate.
      * rewrite date_text_inked. discriminate.
    + intros (s & -> & Hs). exact Hs.
  - unfold treated_as_absent, name_row_matches. now intros ->.
  - unfold treated_as_absent, acc_row_matches. now intros ->.
Qed.

(** The first row of [gap_frame] has both cells missing: the file nan.pdf
    matches it by the name column, and the payload is built from it. *)
Lemma missing_cell_reads_nan_witness :
  name_row_matches "nan.pdf" (hd [] (rows gap_frame)) = true
  /\ build_attributes_from_excel (Some gap_frame) "nan.pdf" "urn:x"
     = (Some [mk_attribute 7374769 "L1"], file_name_column).
Proof.
  split; [| reflexivity].
  apply (missing_cell_reads_nan "nan.pdf" "urn:x" (hd [] (rows gap_frame)));
    [reflexivity | right; reflexivity].
Defined.

(** ** The payload builder *)

Lemma dict_get_in (d : list (string * Z)) (key : string) (v : Z) :
  dict_get d key = Some v -> In (key, v) d.
Proof.
  induction d as [| [k w] rest IH]; simpl; [discriminate |].
  destruct (String.eqb_spec k key) as [-> | _].
  - intros [= ->]. now left.
  - intros H. right. now apply IH.
Qed.

Lemma unique_values_unique_keys (d : list (string * Z)) (a b : string) (v : Z) :
  NoDup (map snd d) -> In (a, v) d -> In (b, v) d -> a = b.
Proof.
  induction d as [| [k w] rest IH]; simpl; [contradiction |].
  intros Hnd Ha Hb. inversion Hnd as [| ? ? Hnot Hrest]; subst.
  assert (Hin : forall c, In (c, w) rest -> False).
  { intros c Hc. apply Hnot. change w with (snd (c, w)). now apply in_map. }
  destruct Ha as [Ha | Ha]; destruct Hb as [Hb | Hb].
  - congruence.
  - exfalso. injection Ha as _ <-. eauto.
  - exfalso. injection Hb as _ <-. eauto.
  - now apply IH.
Qed.

Lemma attribute_ids_distinct : NoDup (map snd ATTRIBUTE_MAPPING).
Proof.
  unfold ATTRIBUTE_MAPPING. cbn [map snd].
  repeat (constructor; [cbn [In]; intuition discriminate |]).
  constructor.
Qed.

(** No two columns of the schema share an attribute id. *)
Lemma dict_get_injective (c1 c2 : string) (id : Z) :
  dict_get ATTRIBUTE_MAPPING c1 = Some id ->
  dict_get ATTRIBUTE_MAPPING c2 = Some id -> c1 = c2.
Proof.
  intros H1 H2.
  apply (unique_values_unique_keys ATTRIBUTE_MAPPING c1 c2 id);
    [apply attribute_ids_distinct | now apply dict_get_in ..].
Qed.

(** Every entry of a payload comes from a column of the frame that the
    schema knows, and carries the non-empty value of that column. *)
Lemma payload_entry_origin (r : row) (cols : list string) (a : attribute) :
  In a (build_payload r cols) ->
  exists col, In col cols
              /\ dict_get ATTRIBUTE_MAPPING col = Some (attr_id a)
              /\ column_value r col = Some (attr_value a)
              /\ attr_value a <> EmptyString.
Proof.
  induction cols as [| col rest IH]; cbn [build_payload]; [contradiction |].
  destruct (dict_get ATTRIBUTE_MAPPING col) as [id |] eqn:Hid.
  - destruct (column_value r col) as [value |] eqn:Hv.
    + destruct (Py.truthy value) eqn:Ht.
      * intros [<- | Hin].
        -- exists col. cbn [attr_id attr_value].
           repeat split; auto; [now left | now apply truthy_true].
        -- destruct (IH Hin) as (c & ? & ?). exists c.
           split; [now right | assumption].
      * intros Hin. destruct (IH Hin) as (c & ? & ?). exists c.
        split; [now right | assumption].
    + intros Hin. destruct (IH Hin) as (c & ? & ?). exists c.
      split; [now right | assumption].
  - intros Hin. destruct (IH Hin) as (c & ? & ?). exists c.
    split; [now right | assumption].
Qed.

Lemma payload_ids_distinct (r : row) (cols : list string) :
  NoDup cols -> NoDup (map attr_id (build_payload r cols)).
Proof.
  induction 1 as [| col rest Hnot _ IH]; cbn [build_payload];
    [constructor |].
  destruct (dict_get ATTRIBUTE_MAPPING col) as [id |] eqn:Hid; [| exact IH].
  destruct (column_value r col) as [value |]; [| exact IH].
  destruct (Py.truthy value); [| exact IH].
  cbn. constructor; [| exact IH].
  intros Hin. apply in_map_iff in Hin as (a & Ha & Hin).
  apply payload_entry_origin in Hin as (c & Hc & Hget & _).
  cbn in Ha. rewrite Ha in Hget.
  now rewrite (dict_get_injective col c id Hid Hget) in Hnot.
Qed.

(** The columns a payload is built from, in the order of the frame. *)
Lemma payload_follows_columns (r : row) (cols : list string) :
  exists used,
    subsequence used cols
    /\ map (fun a => Some (attr_id a)) (build_payload r cols)
       = map (dict_get ATTRIBUTE_MAPPING) used
    /\ map (fun a => Some (attr_value a)) (build_payload r cols)
       = map (column_value r) used.
Proof.
  induction cols as [| col rest (used & Hsub & Hids & Hvals)];
    cbn [build_payload].
  - exists []. repeat split. constructor.
  - destruct (dict_get ATTRIBUTE_MAPPING col) as [id |] eqn:Hid;
      [destruct (column_value r col) as [value |] eqn:Hv;
       [destruct (Py.truthy value) |] |];
      try (exists used; repeat split; [now constructor | assumption ..]).
    exists (col :: used). cbn [map attr_id attr_value].
    rewrite Hid, Hv, Hids, Hvals.
    repeat split. now constructor.
Qed.

(** C8: a payload the builder produces from a frame, whose column labels
    are pairwise distinct as [read_excel] makes them, is well formed: no
    attribute id occurs twice, no value is empty, every id is an id of
    [ATTRIBUTE_MAPPING], and the entries follow the order of the columns
    of the frame. *)
Theorem payload_is_well_formed
  (df : DataFrame) (file_name item_urn : string) (p : payload)
  (m : match_method) :
  NoDup (columns df) ->
  build_attributes_from_excel (Some df) file_name item_urn = (Some p, m) ->
  NoDup (map attr_id p)
  /\ Forall (fun a => attr_value a <> EmptyString) p
  /\ Forall (fun a => In (attr_id a) (map snd ATTRIBUTE_MAPPING)) p
  /\ exists used,
      subsequence used (columns df)
      /\ map (fun a => Some (attr_id a)) p
         = map (dict_get ATTRIBUTE_MAPPING) used.
Proof.
  intros Hcols Hbuild. unfold build_attributes_from_excel in Hbuild.
  destruct (find_row file_name item_urn df) as [[r method] |];
    [| discriminate].
  injection Hbuild as <- <-.
  split; [now apply payload_ids_distinct | split; [| split]].
  - apply Forall_forall. intros a Ha.
    now apply payload_entry_origin in Ha as (c & _ & _ & _ & Hne).
  - apply Forall_forall. intros a Ha.
    apply payload_entry_origin in Ha as (c & _ & Hget & _).
    apply dict_get_in in Hget. change (attr_id a) with (snd (c, attr_id a)).
    now apply in_map.
  - destruct (payload_follows_columns r (columns df)) as (used & ? & ? & _).
    now exists used.
Qed.

(** The payload of x.pdf from the scenario frame: two entries, the
    columns the schema does not know left out. *)
Lemma payload_is_well_formed_witness :
  NoDup (map attr_id [mk_attribute 7374741 "12";
                      mk_attribute 7374777 "2024-01-15T00:00:00.000Z"])
  /\ Forall (fun a => attr_value a <> EmptyString)
            [mk_attribute 7374741 "12";
             mk_attribute 7374777 "2024-01-15T00:00:00.000Z"].
Proof.
  refine (let H := payload_is_well_formed
                     scenario_frame "x.pdf" "urn:x" _ file_name_column _ _
          in conj (proj1 H) (proj1 (proj2 H))).
  - unfold scenario_frame. cbn [columns].
    repeat (constructor; [cbn [In]; intuition discriminate |]).
    constructor.
  - reflexivity.
Defined.

(** ** Dates *)

(** The loop over the formats returns the timestamp of the first format
    that parses the text. *)
Lemma try_formats_first (date_str : string) (fmts : list string) (out : string) :
  try_formats date_str fmts = Some out
  <-> exists before fmt after dt,
      fmts = before ++ fmt :: after
      /\ Forall (fun f => Strptime.strptime date_str f = None) before
      /\ Strptime.strptime date_str fmt = Some dt
      /\ out = strftime_iso_midnight dt.
Proof.
  revert out. induction fmts as [| f rest IH]; intros out; cbn [try_formats].
  - split; [discriminate |].
    intros (before & fmt & after & dt & H & _). now destruct before.
  - destruct (Strptime.strptime date_str f) as [dt |] eqn:Hf.
    + split.
      * intros [= <-]. exists [], f, rest, dt.
        split; [reflexivity | split; [constructor | split; auto]].
      * intros (before & fmt & after & dt' & Heq & Hnone & Hfmt & ->).
        destruct before as [| b before].
        -- injection Heq as <- _. congruence.
        -- injection Heq as <- _. inversion Hnone. congruence.
    + rewrite IH. split.
      * intros (before & fmt & after & dt & -> & Hnone & Hfmt & ->).
        exists (f :: before), fmt, after, dt.
        split; [reflexivity | split; [now constructor | split; auto]].
      * intros (before & fmt & after & dt & Heq & Hnone & Hfmt & ->).
        destruct before as [| b before].
        -- injection Heq as <- _. congruence.
        -- injection Heq as <- ->. inversion Hnone.
           exists before, fmt, after, dt.
           split; [reflexivity | split; [assumption | split; auto]].
Qed.

Lemma try_formats_shape (date_str : string) (fmts : list string) (out : string) :
  try_formats date_str fmts = Some out ->
  exists dt, out = strftime_iso_midnight dt.
Proof.
  intros H. apply try_formats_first in H as (_ & _ & _ & dt & _ & _ & _ & ->).
  now exists dt.
Qed.

(** Every timestamp [format_date] returns is a date at midnight. *)
Lemma format_date_shape (v : cell) (out : string) :
  format_date v = Some out ->
  exists dt, out = (Py.str_of_int (year dt) ++ "-" ++ Py.zfill 2 (month dt)
                    ++ "-" ++ Py.zfill 2 (day dt) ++ "T00:00:00.000Z")%string.
Proof.
  unfold format_date.
  destruct (isna v || is_empty_str v); [discriminate |].
  destruct v as [| s | z | d];
    try (intros H; apply try_formats_shape in H as (dt & ->); now exists dt).
  intros [= <-]. now exists d.
Qed.

(** The method that comes with a row is one of the four of a match. *)
Lemma find_row_method (df : DataFrame) (fn iu : string) (r : row)
  (m : match_method) :
  find_row fn iu df = Some (r, m) ->
  m = file_name_column \/ m = urn \/ m = filename_in_acc_file_id
  \/ m = single_row.
Proof.
  unfold find_row.
  destruct (if has_column df "file_name"
            then option_map (fun r => (r, file_name_column))
                            (find (name_row_matches fn) (rows df))
            else None) as [[r1 m1] |] eqn:H1.
  - assert (m1 = file_name_column) as ->.
    { destruct (has_column df "file_name"); [| discriminate].
      destruct (find (name_row_matches fn) (rows df)); [| discriminate].
      now injection H1 as _ <-. }
    destruct (rows df) as [| ? [| ? ?]]; intros [= _ <-]; auto.
  - destruct (if has_column df "acc_file_id"
              then scan_acc_file_id fn iu (rows df) else None)
      as [[r2 m2] |] eqn:H2.
    + assert (m2 = urn \/ m2 = filename_in_acc_file_id) as Hm.
      { destruct (has_column df "acc_file_id"); [| discriminate].
        apply scan_some in H2 as (_ & _ & _ & _ & H2).
        apply acc_row_methods in H2. tauto. }
      destruct (rows df) as [| ? [| ? ?]]; intros [= _ <-]; tauto.
    + destruct (rows df) as [| ? [| ? ?]]; try discriminate.
      intros [= _ <-]. auto.
Qed.

(** A date column whose value does not parse adds no entry. *)
Lemma unparsed_date_is_left_out (r : row) (cols : list string)
  (col : string) (id : Z) :
  dict_get ATTRIBUTE_MAPPING col = Some id ->
  is_date_column col = true ->
  format_date (series_get r col NaN) = None ->
  ~ In id (map attr_id (build_payload r cols)).
Proof.
  intros Hid Hdate Hnone Hin.
  apply in_map_iff in Hin as (a & <- & Hin).
  apply payload_entry_origin in Hin as (c & _ & Hget & Hval & _).
  rewrite (dict_get_injective c col (attr_id a) Hget Hid) in Hval.
  unfold column_value in Hval. rewrite Hdate in Hval. congruence.
Qed.

(** C7: the docstring of [format_date] promises ISO 8601, which writes a
    year with four digits.  The text "0999-01-05" is parsed by the format
    year-month-day as 5 January 999, and the timestamp returned for it is
    "999-01-05T00:00:00.000Z": 23 characters, the year with three
    digits. *)
Theorem year_below_1000_is_not_padded :
  Strptime.strptime "0999-01-05" "%Y-%m-%d" = Some (mk_datetime 999 1 5 0 0 0)
  /\ format_date (Str "0999-01-05") = Some "999-01-05T00:00:00.000Z"
  /\ String.length "999-01-05T00:00:00.000Z" = 23%nat
  /\ format_date (Str "0999-01-05") <> Some "0999-01-05T00:00:00.000Z".
Proof.
  repeat split; try (vm_compute; reflexivity).
  vm_compute. discriminate.
Qed.

(** X23: [format_date] tries the five formats day-month name-two digit
    year, day-month name-four digit year, year-month-day, month/day/year
    and day/month/year in that order, and returns the midnight timestamp
    of the first that parses the stripped text, the year written as a
    decimal number; so a text two formats parse is read by the earlier
    one.  The four spellings "15-Jan-24", "15-Jan-2024", "2024-01-15" and
    "01/15/2024" all give "2024-01-15T00:00:00.000Z".  A date column whose
    text no format parses gets no entry in the payload, and the builder
    still returns a payload: its method is never ["error"] once the
    spreadsheet was read. *)
Theorem dates_normalize_in_format_order :
  date_formats = ["%d-%b-%y"; "%d-%b-%Y"; "%Y-%m-%d"; "%m/%d/%Y"; "%d/%m/%Y"]
  /\ (forall s out,
         s <> EmptyString ->
         (format_date (Str s) = Some out
          <-> exists before fmt after dt,
             date_formats = before ++ fmt :: after
             /\ Forall (fun f => Strptime.strptime (Py.strip s) f = None) before
             /\ Strptime.strptime (Py.strip s) fmt = Some dt
             /\ out = strftime_iso_midnight dt))
  /\ (forall v out,
         format_date v = Some out ->
         exists dt,
           out = (Py.str_of_int (year dt) ++ "-" ++ Py.zfill 2 (month dt)
                  ++ "-" ++ Py.zfill 2 (day dt) ++ "T00:00:00.000Z")%string)
  /\ (forall s, In s jan15_spellings -> format_date (Str s) = Some jan15_midnight)
  /\ format_date (Str "01/02/2024") = Some "2024-01-02T00:00:00.000Z"
  /\ format_date (Str "13/02/2024") = Some "2024-02-13T00:00:00.000Z"
  /\ format_date (Str "next spring") = None
  /\ (forall r cols col id,
         dict_get ATTRIBUTE_MAPPING col = Some id ->
         is_date_column col = true ->
         format_date (series_get r col NaN) = None ->
         ~ In id (map attr_id (build_payload r cols)))
  /\ (forall df file_name item_urn,
         snd (build_attributes_from_excel (Some df) file_name item_urn)
         <> error).
Proof.
  split; [reflexivity |].
  split.
  { intros s out Hs. unfold format_date.
    destruct s as [| c s']; [congruence |].
    cbn [isna is_empty_str orb py_str]. apply try_formats_first. }
  split; [exact format_date_shape |].
  split.
  { intros s Hs. cbn [jan15_spellings In] in Hs.
    destruct Hs as [<- | [<- | [<- | [<- | []]]]]; vm_compute; reflexivity. }
  split; [vm_compute; reflexivity |].
  split; [vm_compute; reflexivity |].
  split; [vm_compute; reflexivity |].
  split; [exact unparsed_date_is_left_out |].
  intros df fn iu. unfold build_attributes_from_excel.
  destruct (find_row fn iu df) as [[r m] |] eqn:Hrow; cbn [snd];
    [| discriminate].
  intros ->.
  destruct (find_row_method df fn iu r error Hrow) as [H | [H | [H | H]]];
    discriminate.
Qed.

(** [vague_row]: the planned start "next spring" is left out, the planned
    end " 03/04/2025 " is read month first. *)
Lemma dates_normalize_in_format_order_witness :
  ~ In 7374777
       (map attr_id
            (build_payload vague_row
                           ["Package ID"; "Planned Start"; "Planned End"]))
  /\ format_date (Str "15-Jan-24") = Some jan15_midnight
  /\ build_payload vague_row ["Package ID"; "Planned Start"; "Planned End"]
     = [mk_attribute 7374741 "P-7";
        mk_attribute 7374783 "2025-03-04T00:00:00.000Z"].
Proof.
  destruct dates_normalize_in_format_order
    as (_ & _ & _ & Hfour & _ & _ & _ & Homit & _).
  split; [| split].
  - apply (Homit vague_row _ "Planned Start"); reflexivity.
  - apply Hfour. left. reflexivity.
  - reflexivity.
Defined.

(** * Further properties *)

(** ** The tree walker, further *)

Lemma in_for_items (p : string) (data : list item) (f : file_info) :
  In f (for_items p data) <-> exists it, In it data /\ In f (visit_item p it).
Proof.
  induction data as [| x rest IH]; cbn [for_items].
  - split; [contradiction | intros (it & [] & _)].
  - rewrite in_app_iff, IH. split.
    + intros [H | (it & Hin & H)].
      * exists x. split; [now left | exact H].
      * exists it. split; [now right | exact H].
    + intros (it & [<- | Hin] & H); [now left |].
      right. now exists it.
Qed.

(** From a property of the entries of every listing to all entries. *)
Lemma item_induction_by_contents (P : item -> Prop) :
  (forall ty n i sub,
      Forall P (list_folder_contents sub) -> P (Item ty n i sub)) ->
  forall it, P it.
Proof.
  intros Hstep it.
  induction it as [ty n i e | ty n i status | ty n i status data IH]
    using item_induction; apply Hstep; cbn; try constructor.
  destruct (status =? 200); [exact IH | constructor].
Qed.

Lemma join_path_ends_with_name (p n : string) :
  exists pre, join_path p n = (pre ++ n)%string.
Proof.
  unfold join_path. destruct (Py.truthy p).
  - exists (p ++ "/")%string. now rewrite string_app_assoc.
  - now exists EmptyString.
Qed.

Lemma visit_item_paths (it : item) :
  forall p f,
    In f (visit_item p it) ->
    (exists pre, fi_path f = (pre ++ fi_name f)%string)
    /\ (Py.truthy p = true -> exists t, fi_path f = (p ++ "/" ++ t)%string).
Proof.
  induction it as [ty n i sub IH] using item_induction_by_contents.
  intros p f Hin.
  destruct (String.eqb ty "items") eqn:Hf.
  - rewrite visit_file in Hin by exact Hf. destruct Hin as [<- | []].
    cbn [fi_path fi_name]. split; [apply join_path_ends_with_name |].
    intros Hp. exists (display_name n). unfold join_path. now rewrite Hp.
  - destruct (String.eqb ty "folders") eqn:Hd.
    + rewrite visit_folder in Hin by assumption.
      unfold get_all_files_recursive in Hin.
      apply in_for_items in Hin as (x & Hx & Hin).
      rewrite Forall_forall in IH.
      destruct (IH x Hx _ f Hin) as [Hname Hstart].
      split; [exact Hname |]. intros Hp.
      destruct Hstart as (t & Ht).
      { unfold join_path. rewrite Hp. now apply truthy_app. }
      exists (display_name n ++ "/" ++ t)%string. rewrite Ht.
      unfold join_path. rewrite Hp. now rewrite !string_app_assoc.
    + now rewrite visit_other in Hin.
Qed.

(** X1: the path of every file the walk returns ends with the name of the
    file, and when the walk starts under a non-empty path every path it
    returns starts with that path and a slash. *)
Theorem walked_paths_keep_prefix_and_name
  (folder : listing) (current_path : string) (f : file_info) :
  In f (get_all_files_recursive folder current_path) ->
  (exists pre, fi_path f = (pre ++ fi_name f)%string)
  /\ (current_path <> EmptyString ->
      exists t, fi_path f = (current_path ++ "/" ++ t)%string).
Proof.
  unfold get_all_files_recursive. intros Hin.
  apply in_for_items in Hin as (it & _ & Hin).
  destruct (visit_item_paths it current_path f Hin) as [Hname Hstart].
  split; [exact Hname |]. intros Hp. apply Hstart. now apply truthy_true.
Qed.

(** The file y.pdf found under B when the walk of B starts at "A/B". *)
Lemma walked_paths_keep_prefix_and_name_witness :
  (exists pre, "A/B/y.pdf" = (pre ++ "y.pdf")%string)
  /\ ("A/B" <> EmptyString -> exists t, "A/B/y.pdf" = ("A/B" ++ "/" ++ t)%string).
Proof.
  apply (walked_paths_keep_prefix_and_name
           b_contents "A/B" (mk_file_info "iy" "y.pdf" "A/B/y.pdf")).
  left. reflexivity.
Defined.

Lemma visit_item_ids_names (it : item) :
  forall p q,
    map fi_id (visit_item p it) = map fi_id (visit_item q it)
    /\ map fi_name (visit_item p it) = map fi_name (visit_item q it).
Proof.
  induction it as [ty n i sub IH] using item_induction_by_contents.
  intros p q.
  destruct (String.eqb ty "items") eqn:Hf.
  - rewrite !visit_file by exact Hf. split; reflexivity.
  - destruct (String.eqb ty "folders") eqn:Hd.
    + rewrite !visit_folder by assumption.
      unfold get_all_files_recursive.
      generalize (join_path p (display_name n)) (join_path q (display_name n)).
      intros p' q'.
      induction IH as [| x rest Hx _ IHrest]; [split; reflexivity |].
      cbn [for_items]. rewrite !map_app.
      destruct (Hx p' q') as [-> ->]. destruct IHrest as [-> ->].
      split; reflexivity.
    + rewrite !visit_other by assumption. split; reflexivity.
Qed.

(** X2: which files the walk finds does not depend on the path it starts
    under: the ids and the names it returns, and their order, are the same
    for every starting path; only the path texts differ. *)
Theorem found_files_do_not_depend_on_path
  (folder : listing) (p q : string) :
  map fi_id (get_all_files_recursive folder p)
  = map fi_id (get_all_files_recursive folder q)
  /\ map fi_name (get_all_files_recursive folder p)
     = map fi_name (get_all_files_recursive folder q)
  /\ List.length (get_all_files_recursive folder p)
     = List.length (get_all_files_recursive folder q).
Proof.
  assert (H : map fi_id (get_all_files_recursive folder p)
              = map fi_id (get_all_files_recursive folder q)
              /\ map fi_name (get_all_files_recursive folder p)
                 = map fi_name (get_all_files_recursive folder q)).
  { unfold get_all_files_recursive.
    induction (list_folder_contents folder) as [| x rest [IHi IHn]];
      [split; reflexivity |].
    cbn [for_items]. rewrite !map_app, IHi, IHn.
    destruct (visit_item_ids_names x p q) as [-> ->]. split; reflexivity. }
  destruct H as [Hi Hn]. repeat split; try assumption.
  rewrite <- (length_map fi_id), Hi. apply length_map.
Qed.

(** ** The loop of [main], further *)

Section LoopRequests.

Variables (use_excel : bool) (excel : option DataFrame) (R : remote).

(** The three ways an iteration ends: the file is skipped and nothing is
    sent; the lookup is sent and fails; the lookup and the update are
    sent, the update for a non-empty payload and a non-empty version, and
    the file succeeds exactly when the update answers 200. *)
Lemma process_file_cases (st : state) (f : file_info) :
  let st' := process_file use_excel excel R st f in
  (exists reason,
      st' = record_skipped st (fi_path f) reason)
  \/ (st' = record_failed st (fi_path f) "Version lookup failed"
                          [tip_lookup (fi_id f)])
  \/ (exists v p,
         v <> EmptyString /\ p <> []
         /\ ((exists body, batch_update R v p = Http 200 body
                           /\ st' = record_success
                                      st (fi_path f) (List.length p)
                                      [tip_lookup (fi_id f);
                                       batch_update_post v p])
             \/ (exists message,
                    fst (update_custom_attributes (batch_update R v p)) = false
                    /\ st' = record_failed
                               st (fi_path f) message
                               [tip_lookup (fi_id f);
                                batch_update_post v p]))).
Proof.
  unfold process_file. destruct use_excel; [| left; eauto].
  destruct (build_attributes_from_excel excel (fi_name f) (fi_id f))
    as [p source].
  destruct p as [[| a p] |]; cbn [not_payload]; try (left; eauto; fail).
  unfold update_file.
  destruct (get_version_urn_from_item (tip R (fi_id f))) as [v |];
    cbn [not_version]; [| right; left; reflexivity].
  destruct (Py.truthy v) eqn:Hv; cbn [negb]; [| right; left; reflexivity].
  right. right. exists v, (a :: p).
  split; [now apply truthy_true | split; [discriminate |]].
  destruct (update_custom_attributes (batch_update R v (a :: p)))
    as [ok message] eqn:Hup.
  destruct ok.
  - left. unfold update_custom_attributes in Hup.
    destruct (batch_update R v (a :: p)) as [e | status body];
      [discriminate |].
    destruct (Z.eqb_spec status 200) as [-> | _]; [| discriminate].
    now exists body.
  - right. now exists message.
Qed.


(** What one iteration adds to the counters and to the requests. *)
Lemma process_file_requests (st : state) (f : file_info) :
  exists dt dp ds df : nat,
    let st' := process_file use_excel excel R st f in
    tips st' = (tips st + dt)%nat
    /\ posts st' = (posts st + dp)%nat
    /\ success_count st' = (success_count st + ds)%nat
    /\ failed_count st' = (failed_count st + df)%nat
    /\ List.length (calls st') = (List.length (calls st) + dt + dp)%nat
    /\ dt = (ds + df)%nat /\ (ds <= dp)%nat /\ (dp <= dt)%nat.
Proof.
  destruct (process_file_cases st f)
    as [(reason & ->) | [-> | (v & p & _ & _ & [(b & _ & ->) | (m & _ & ->)])]];
    unfold tips, posts; cbn -[Nat.add];
    rewrite ?filter_app, ?length_app; cbn.
  - exists 0%nat, 0%nat, 0%nat, 0%nat. repeat split; lia.
  - exists 1%nat, 0%nat, 0%nat, 1%nat. repeat split; lia.
  - exists 1%nat, 1%nat, 1%nat, 0%nat. repeat split; lia.
  - exists 1%nat, 1%nat, 0%nat, 1%nat. repeat split; lia.
Qed.

Lemma loop_requests (files : list file_info) (st : state) :
  exists dt dp ds df : nat,
    let st' := fold_left (process_file use_excel excel R) files st in
    tips st' = (tips st + dt)%nat
    /\ posts st' = (posts st + dp)%nat
    /\ success_count st' = (success_count st + ds)%nat
    /\ failed_count st' = (failed_count st + df)%nat
    /\ List.length (calls st') = (List.length (calls st) + dt + dp)%nat
    /\ dt = (ds + df)%nat /\ (ds <= dp)%nat /\ (dp <= dt)%nat.
Proof.
  revert st. induction files as [| f rest IH]; intros st.
  - exists 0%nat, 0%nat, 0%nat, 0%nat. cbn. repeat split; lia.
  - cbn [fold_left].
    destruct (process_file_requests st f)
      as (dt1 & dp1 & ds1 & df1 & H1).
    destruct (IH (process_file use_excel excel R st f))
      as (dt2 & dp2 & ds2 & df2 & H2).
    cbv zeta in H1, H2.
    exists (dt1 + dt2)%nat, (dp1 + dp2)%nat, (ds1 + ds2)%nat, (df1 + df2)%nat.
    cbv zeta. repeat split; lia.
Qed.

End LoopRequests.

(** X3: the requests of a run add up with its counters: one version
    lookup is sent for each file counted as success or failed and none for
    a skipped file; an update is posted for every success, and never
    without the lookup of its file; nothing else is sent. *)
Theorem requests_match_counters
  (use_excel : bool) (excel : option DataFrame) (R : remote)
  (all_files : list file_info) :
  let st := main_loop use_excel excel R all_files in
  tips st = (success_count st + failed_count st)%nat
  /\ (success_count st <= posts st)%nat
  /\ (posts st <= tips st)%nat
  /\ List.length (calls st) = (tips st + posts st)%nat.
Proof.
  destruct (loop_requests use_excel excel R all_files initial_state)
    as (dt & dp & ds & df & H).
  unfold main_loop. cbv zeta in *. cbn in H. repeat split; lia.
Qed.

Lemma loop_all_skipped (use_excel : bool) (excel : option DataFrame)
  (R : remote) (reason : string) (files : list file_info) :
  (forall st f, process_file use_excel excel R st f
                = record_skipped st (fi_path f) reason) ->
  forall st,
    fold_left (process_file use_excel excel R) files st
    = mk_state (success_count st) (failed_count st)
               (skipped_count st + List.length files)
               (results st ++ map (skipped_record reason) files) (calls st).
Proof.
  intros Hstep. induction files as [| f rest IH]; intros st.
  - cbn. rewrite app_nil_r, Nat.add_0_r. now destruct st.
  - cbn [fold_left]. rewrite Hstep, IH. unfold record_skipped.
    cbn [success_count failed_count skipped_count results calls map
         List.length skipped_record].
    rewrite <- app_assoc. f_equal. lia.
Qed.

(** X4: without the spreadsheet file, and likewise when the spreadsheet
    cannot be read, the loop sends no request at all and records every
    file as skipped, with the reason "No Excel file" in the first case and
    "error" in the second, whatever the service would answer. *)
Theorem no_spreadsheet_no_request
  (excel : option DataFrame) (R : remote) (all_files : list file_info) :
  main_loop false excel R all_files
  = mk_state 0 0 (List.length all_files)
             (map (skipped_record "No Excel file") all_files) []
  /\ main_loop true None R all_files
     = mk_state 0 0 (List.length all_files)
                (map (skipped_record "error") all_files) [].
Proof.
  unfold main_loop. split.
  - now rewrite (loop_all_skipped false excel R "No Excel file").
  - now rewrite (loop_all_skipped true None R "error").
Qed.

Section LoopSuccess.

Variables (use_excel : bool) (excel : option DataFrame) (R : remote).

Lemma backed_grows (st : state) (rs : list result) (sent : list call)
  (st' : state) :
  calls st' = calls st ++ sent ->
  Forall (backed R st) rs -> Forall (backed R st') rs.
Proof.
  intros Hcalls. apply Forall_impl. intros r Hr n Hn.
  destruct (Hr n Hn) as (Hpos & v & p & Hv & Hlen & Hbody & Hin).
  split; [exact Hpos |]. exists v, p. repeat split; try assumption.
  rewrite Hcalls. apply in_or_app. now left.
Qed.

Lemma backed_step (st st' : state) (r : result) (sent : list call) :
  results st' = results st ++ [r] ->
  calls st' = calls st ++ sent ->
  backed R st' r ->
  Forall (backed R st) (results st) ->
  Forall (backed R st') (results st').
Proof.
  intros Hres Hcalls Hr Hst. rewrite Hres. apply Forall_app. split.
  - exact (backed_grows st (results st) sent st' Hcalls Hst).
  - constructor; [exact Hr | constructor].
Qed.

Lemma process_file_backed (st : state) (f : file_info) :
  Forall (backed R st) (results st) ->
  Forall (backed R (process_file use_excel excel R st f))
         (results (process_file use_excel excel R st f)).
Proof.
  intros Hst.
  destruct (process_file_cases use_excel excel R st f)
    as [(reason & ->)
       | [-> | (v & p & Hv & Hp & [(b & Hb & ->) | (m & _ & ->)])]].
  - apply (backed_step st _ (mk_result (fi_path f) (skipped reason)) []);
      try reflexivity; try assumption.
    + cbn. now rewrite app_nil_r.
    + intros n Hn. discriminate.
  - eapply (backed_step st); try reflexivity; try assumption.
    intros n Hn. discriminate.
  - eapply (backed_step st); try reflexivity; try assumption.
    intros n Hn. injection Hn as <-. split.
    + destruct p; [congruence | cbn; lia].
    + exists v, p. repeat split; try assumption; [now exists b |].
      cbn [calls record_success]. apply in_or_app. right. right. now left.
  - eapply (backed_step st); try reflexivity; try assumption.
    intros n Hn. discriminate.
Qed.

Lemma loop_backed (files : list file_info) (st : state) :
  Forall (backed R st) (results st) ->
  Forall (backed R (fold_left (process_file use_excel excel R) files st))
         (results (fold_left (process_file use_excel excel R) files st)).
Proof.
  revert st. induction files as [| f rest IH]; intros st Hst; [exact Hst |].
  cbn [fold_left]. apply IH. now apply process_file_backed.
Qed.

End LoopSuccess.

(** X5: a file is recorded as success only for an update that was really
    posted and answered with status 200: the record counts at least one
    attribute, the number of entries of the payload posted, and the
    version the update was posted for is not empty. *)
Theorem success_is_backed_by_an_update
  (use_excel : bool) (excel : option DataFrame) (R : remote)
  (all_files : list file_info) (r : result) (n : nat) :
  In r (results (main_loop use_excel excel R all_files)) ->
  status r = success n ->
  (1 <= n)%nat
  /\ exists v p,
      v <> EmptyString /\ List.length p = n
      /\ (exists body, batch_update R v p = Http 200 body)
      /\ In (batch_update_post v p)
            (calls (main_loop use_excel excel R all_files)).
Proof.
  intros Hin Hn.
  pose proof (loop_backed use_excel excel R all_files initial_state
                          (Forall_nil _)) as H.
  rewrite Forall_forall in H. exact (H r Hin n Hn).
Qed.

(** The run of the scenario: x.pdf succeeds with two attributes. *)
Lemma success_is_backed_by_an_update_witness :
  (1 <= 2)%nat
  /\ exists v p,
      v <> EmptyString /\ List.length p = 2%nat
      /\ (exists body, batch_update obliging v p = Http 200 body)
      /\ In (batch_update_post v p)
            (calls (main_loop true (Some scenario_frame) obliging
                              [mk_file_info "ix" "x.pdf" "A/x.pdf"])).
Proof.
  apply (success_is_backed_by_an_update
           true (Some scenario_frame) obliging
           [mk_file_info "ix" "x.pdf" "A/x.pdf"]
           (mk_result "A/x.pdf" (success 2)) 2).
  - left. reflexivity.
  - reflexivity.
Defined.

Lemma lower_is_y (s : string) : Py.lower s = "y" -> s = "y" \/ s = "Y".
Proof.
  destruct s as [| c [| c' s']]; cbn; try discriminate.
  destruct c as [[] [] [] [] [] [] [] []]; cbv; intros H;
    try discriminate; auto.
Qed.

(** X6: [main] reaches the loop only when the four settings are set and
    not empty, the token request gives a token, the walk found a file and
    the operator typed y or Y; it then records one outcome for each file
    found, one at least.  In every other case it ends before any file is
    looked at. *)
Theorem main_runs_only_when_confirmed
  (env : settings) (use_excel : bool) (excel : option DataFrame)
  (token_reply : reply (option string)) (root : listing) (choice : string)
  (R : remote) (st : state) :
  main env use_excel excel token_reply root choice R = completed st
  <-> (is_set (CLIENT_ID env) = true /\ is_set (CLIENT_SECRET env) = true
       /\ is_set (PROJECT_ID env) = true /\ is_set (ROOT_FOLDER_URN env) = true
       /\ get_token token_reply <> None
       /\ get_all_files_recursive root "" <> []
       /\ (choice = "y" \/ choice = "Y")
       /\ st = main_loop use_excel excel R (get_all_files_recursive root "")
       /\ map file (results st)
          = map fi_path (get_all_files_recursive root "")
       /\ results st <> []).
Proof.
  unfold main. split.
  - destruct (is_set (CLIENT_ID env)), (is_set (CLIENT_SECRET env)),
      (is_set (PROJECT_ID env)), (is_set (ROOT_FOLDER_URN env));
      cbn [andb negb]; try discriminate.
    destruct (get_token token_reply) as [token |]; [| discriminate].
    destruct (get_all_files_recursive root "") as [| f files] eqn:Hfiles;
      [discriminate |].
    cbn [List.length Nat.eqb].
    destruct (String.eqb_spec (Py.lower choice) "y") as [Hy | _];
      [| discriminate].
    cbn [negb]. intros [= <-].
    destruct (loop_invariant use_excel excel R (f :: files) initial_state)
      as (Hmap & _).
    cbn [initial_state results map app] in Hmap.
    repeat split; try discriminate; try assumption.
    + now apply lower_is_y.
    + intros Hnil. unfold main_loop in Hnil. rewrite Hnil in Hmap.
      discriminate.
  - intros (-> & -> & -> & -> & Htok & Hfiles & Hchoice & -> & _).
    cbn [andb negb].
    destruct (get_token token_reply) as [token |]; [| congruence].
    destruct (get_all_files_recursive root "") as [| f files];
      [congruence |].
    cbn [List.length Nat.eqb].
    now destruct Hchoice as [-> | ->].
Qed.

(** ** Dates, further *)

Lemma digit_is_no_space (c : ascii) :
  Strptime.is_digit c = true -> Py.isspace c = false.
Proof.
  destruct c as [[] [] [] [] [] [] [] []]; cbv; congruence.
Qed.

Lemma all_digits_no_space (s : string) :
  all_digits s = true -> no_space s = true.
Proof.
  induction s as [| c r IH]; cbn; [reflexivity |].
  intros H. apply andb_true_iff in H as [Hc Hr].
  now rewrite (digit_is_no_space c Hc), IH.
Qed.

Lemma rstrip_no_space (s : string) : no_space s = true -> Py.rstrip s = s.
Proof.
  induction s as [| c r IH]; cbn; [reflexivity |].
  intros H. apply andb_true_iff in H as [Hc Hr].
  rewrite (IH Hr). apply negb_true_iff in Hc. rewrite Hc. now destruct r.
Qed.

(** A text without white space is its own strip. *)
Lemma strip_no_space (s : string) : no_space s = true -> Py.strip s = s.
Proof.
  intros H. unfold Py.strip.
  assert (Hl : Py.lstrip s = s).
  { destruct s as [| c r]; [reflexivity |]. cbn in *.
    apply andb_true_iff in H as [Hc _]. apply negb_true_iff in Hc.
    now rewrite Hc. }
  rewrite Hl. now apply rstrip_no_space.
Qed.

Lemma uint_text_digits (d : Decimal.uint) :
  all_digits (NilEmpty.string_of_uint d) = true.
Proof.
  induction d; cbn; auto.
Qed.

(** The text of an integer: digits, after a minus sign when negative. *)
Lemma int_text_shape (z : Z) :
  (all_digits (Py.str_of_int z) = true)
  \/ (exists r, Py.str_of_int z = String "-" r /\ all_digits r = true).
Proof.
  unfold Py.str_of_int. destruct (Z.to_int z) as [d | d]; cbn.
  - left. destruct d; try reflexivity; apply (uint_text_digits (_ d)).
  - right. eexists. split; [reflexivity |].
    destruct d; try reflexivity; apply (uint_text_digits (_ d)).
Qed.

Lemma one_rest (ok : ascii -> bool) (s m rest : string) :
  In (m, rest) (Strptime.one ok s) -> exists c, s = String c rest.
Proof.
  destruct s as [| c r]; cbn; [contradiction |].
  destruct (ok c); cbn; [| contradiction].
  intros [[= _ <-] | []]. now exists c.
Qed.

(** What a pattern leaves of a text of digits is a text of digits. *)
Lemma matches_rest_digits (r : Strptime.re) :
  forall s m rest,
    all_digits s = true ->
    In (m, rest) (Strptime.matches r s) -> all_digits rest = true.
Proof.
  induction r as [c | lo hi | | a IHa b IHb | a IHa b IHb];
    intros s m rest Hs Hin; cbn [Strptime.matches] in Hin.
  - apply one_rest in Hin as (x & ->). cbn in Hs.
    now apply andb_true_iff in Hs.
  - apply one_rest in Hin as (x & ->). cbn in Hs.
    now apply andb_true_iff in Hs.
  - apply one_rest in Hin as (x & ->). cbn in Hs.
    now apply andb_true_iff in Hs.
  - apply in_flat_map in Hin as ([m1 r1] & H1 & Hin).
    apply in_map_iff in Hin as ([m2 r2] & [= _ <-] & H2).
    cbn [fst snd] in *. eapply IHb; [| exact H2]. eapply IHa; eassumption.
  - apply in_app_iff in Hin as [Hin | Hin]; eauto.
Qed.

Lemma punctuation_after_digits (c : ascii) (s : string) :
  Strptime.is_digit (Py.lower_char c) = false ->
  all_digits s = true ->
  Strptime.matches (Strptime.Chr c) s = [].
Proof.
  intros Hc Hs. destruct s as [| x r]; [reflexivity |]. cbn in *.
  apply andb_true_iff in Hs as [Hx _].
  destruct (Ascii.eqb_spec (Py.lower_char x) (Py.lower_char c)) as [Heq |];
    [| reflexivity].
  exfalso. rewrite <- Heq in Hc.
  revert Hx Hc. destruct x as [[] [] [] [] [] [] [] []]; cbv; congruence.
Qed.

Lemma flat_map_nothing {A B : Type} (f : A -> list B) (l : list A) :
  (forall x, In x l -> f x = []) -> flat_map f l = [].
Proof.
  induction l as [| x rest IH]; cbn; [reflexivity |].
  intros H. rewrite (H x) by now left. apply IH. intros y Hy. apply H. now right.
Qed.

(** A field followed by punctuation does not match a text of digits. *)
Lemma field_then_punctuation (d : Strptime.directive) (c : ascii)
  (ts : list Strptime.token) (s : string) :
  Strptime.is_digit (Py.lower_char c) = false ->
  all_digits s = true ->
  Strptime.match_tokens (Strptime.Field d :: Strptime.Lit c :: ts) s = [].
Proof.
  intros Hc Hs. cbn [Strptime.match_tokens].
  apply flat_map_nothing. intros [m rest] Hin. cbn [fst snd].
  rewrite (punctuation_after_digits c rest Hc); [reflexivity |].
  eapply matches_rest_digits; eassumption.
Qed.

Lemma digits_are_no_date (s : string) :
  all_digits s = true -> try_formats s date_formats = None.
Proof.
  intros Hs. unfold date_formats, try_formats, Strptime.strptime.
  cbn [Strptime.compile Ascii.eqb Bool.eqb Py.isspace orb option_map].
  cbn -[Strptime.match_tokens].
  now rewrite !field_then_punctuation by (try reflexivity; exact Hs).
Qed.

Lemma minus_is_no_date (r : string) :
  try_formats (String "-" r) date_formats = None.
Proof.
  reflexivity.
Qed.

(** X7: a number in a date column is never sent: [format_date] gives
    [None] for every integer cell (a serial day number such as 45000
    included), since the text of an integer holds no separator. *)
Theorem integer_cell_is_no_date (z : Z) : format_date (Int z) = None.
Proof.
  unfold format_date. cbn [isna is_empty_str orb py_str].
  destruct (int_text_shape z) as [Hd | (r & Hr & Hd)].
  - rewrite strip_no_space by (now apply all_digits_no_space).
    now apply digits_are_no_date.
  - rewrite strip_no_space.
    + rewrite Hr. apply minus_is_no_date.
    + rewrite Hr. cbn. now apply all_digits_no_space.
Qed.

Lemma lstrip_head (s : string) :
  Py.lstrip s = EmptyString
  \/ exists c r, Py.lstrip s = String c r /\ Py.isspace c = false.
Proof.
  induction s as [| c r IH]; cbn; [now left |].
  destruct (Py.isspace c) eqn:Hc; [exact IH |].
  right. now exists c, r.
Qed.

Lemma rstrip_cons (c : ascii) (r : string) :
  Py.rstrip (String c r)
  = match Py.rstrip r with
    | EmptyString => if Py.isspace c then EmptyString else String c EmptyString
    | String c' r' => String c (String c' r')
    end.
Proof.
  reflexivity.
Qed.

Lemma rstrip_idempotent (s : string) : Py.rstrip (Py.rstrip s) = Py.rstrip s.
Proof.
  induction s as [| c r IH]; [reflexivity |].
  rewrite rstrip_cons.
  destruct (Py.rstrip r) as [| c' r'] eqn:Hr.
  - destruct (Py.isspace c) eqn:Hc; [reflexivity |].
    rewrite rstrip_cons. cbn [Py.rstrip]. now rewrite Hc.
  - rewrite rstrip_cons, IH. reflexivity.
Qed.

Lemma rstrip_keeps_head (c : ascii) (r : string) :
  Py.isspace c = false -> exists r', Py.rstrip (String c r) = String c r'.
Proof.
  intros Hc. cbn. rewrite Hc. destruct (Py.rstrip r); eauto.
Qed.

(** The strip of a text is empty or begins with a character that is not
    white space. *)
Lemma strip_head (s : string) :
  Py.strip s = EmptyString
  \/ exists c r, Py.strip s = String c r /\ Py.isspace c = false.
Proof.
  unfold Py.strip.
  destruct (lstrip_head s) as [-> | (c & r & -> & Hc)]; [now left |].
  right. destruct (rstrip_keeps_head c r Hc) as (r' & ->). now exists c, r'.
Qed.

(** Stripping twice is stripping once. *)
Lemma strip_idempotent (s : string) : Py.strip (Py.strip s) = Py.strip s.
Proof.
  destruct (strip_head s) as [-> | (c & r & Hs & Hc)]; [reflexivity |].
  unfold Py.strip at 1. rewrite Hs. cbn [Py.lstrip]. rewrite Hc.
  rewrite <- Hs. unfold Py.strip. apply rstrip_idempotent.
Qed.

(** X8: white space around the text of a date plays no part: a text cell
    and the same cell stripped give the same timestamp, or both none. *)
Theorem date_text_is_stripped (s : string) :
  format_date (Str (Py.strip s)) = format_date (Str s).
Proof.
  unfold format_date. cbn [isna orb py_str].
  rewrite strip_idempotent.
  destruct s as [| c r]; [reflexivity |].
  destruct (Py.strip (String c r)) eqn:Hs; reflexivity.
Qed.

Lemma string_length_app (a b : string) :
  String.length (a ++ b)%string = (String.length a + String.length b)%nat.
Proof.
  induction a as [| c a IH]; cbn; [reflexivity | now rewrite IH].
Qed.

Lemma zfill_width (w : nat) (bound z : Z) :
  forallb (fun n => Nat.eqb (String.length (Py.zfill w (Z.of_nat n))) w)
          (seq 0 (Z.to_nat bound)) = true ->
  0 <= z < bound ->
  String.length (Py.zfill w z) = w.
Proof.
  intros Hall Hz. rewrite forallb_forall in Hall.
  specialize (Hall (Z.to_nat z)). rewrite Z2Nat.id in Hall by lia.
  apply Nat.eqb_eq, Hall. apply in_seq. lia.
Qed.

(** A date that [strptime] returns is a date of the calendar at
    midnight. *)
Lemma strptime_valid (s fmt : string) (dt : datetime) :
  Strptime.strptime s fmt = Some dt ->
  Strptime.valid_date (year dt) (month dt) (day dt) = true
  /\ hour dt = 0 /\ minute dt = 0 /\ second dt = 0.
Proof.
  unfold Strptime.strptime.
  destruct (Strptime.compile fmt) as [ts |]; [| discriminate].
  destruct (Strptime.match_tokens ts s) as [| [g [| ? ?]] ?]; try discriminate.
  destruct (Strptime.year_of g) as [y |]; [| discriminate].
  destruct (Strptime.month_of g) as [m |]; [| discriminate].
  destruct (Strptime.day_of g) as [d |]; [| discriminate].
  destruct (Strptime.valid_date y m d) eqn:Hv; [| discriminate].
  intros [= <-]. cbn. auto.
Qed.

Lemma days_in_month_bound (y m : Z) : Strptime.days_in_month y m <= 31.
Proof.
  unfold Strptime.days_in_month.
  destruct (m =? 2); [destruct (Strptime.is_leap y); lia |].
  destruct ((m =? 4) || (m =? 6) || (m =? 9) || (m =? 11)); lia.
Qed.

Lemma int_text_width (w : nat) (lo hi z : Z) :
  forallb (fun n => Nat.eqb (String.length (Py.str_of_int (lo + Z.of_nat n))) w)
          (seq 0 (Z.to_nat (hi - lo))) = true ->
  lo <= z < hi ->
  String.length (Py.str_of_int z) = w.
Proof.
  intros Hall Hz. rewrite forallb_forall in Hall.
  specialize (Hall (Z.to_nat (z - lo))).
  replace (lo + Z.of_nat (Z.to_nat (z - lo))) with z in Hall by lia.
  apply Nat.eqb_eq, Hall. apply in_seq. lia.
Qed.

(** X9: the timestamp [format_date] gives for a text is that of a date
    of the calendar (the day exists in its month, leap years counted), with
    the year from 1 to 9999; after the digits of the year it has twenty
    characters, so it is 24 characters long when the year is 1000 or
    later.  A text that names a day that does not exist gives none. *)
Theorem text_date_is_a_calendar_date (s out : string) :
  format_date (Str s) = Some out ->
  exists y m d,
    Strptime.valid_date y m d = true
    /\ 1 <= y <= 9999 /\ 1 <= m <= 12 /\ 1 <= d <= Strptime.days_in_month y m
    /\ out = strftime_iso_midnight (mk_datetime y m d 0 0 0)
    /\ String.length out = (String.length (Py.str_of_int y) + 20)%nat
    /\ (1000 <= y -> String.length out = 24%nat).
Proof.
  unfold format_date. cbn [isna orb py_str].
  destruct (is_empty_str (Str s)); [discriminate |].
  intros H.
  apply try_formats_first in H as (_ & fmt & _ & dt & _ & _ & Hp & ->).
  apply strptime_valid in Hp as (Hv & Hh & Hm & Hs).
  destruct dt as [y m d hh mm ss]. cbn [year month day hour minute second] in *.
  subst hh mm ss. exists y, m, d.
  pose proof Hv as Hb. unfold Strptime.valid_date in Hb.
  rewrite !andb_true_iff, !Z.leb_le in Hb.
  pose proof (days_in_month_bound y m).
  assert (Hlen : String.length
                   (strftime_iso_midnight (mk_datetime y m d 0 0 0))
                 = (String.length (Py.str_of_int y) + 20)%nat).
  { unfold strftime_iso_midnight. cbn [year month day].
    rewrite !string_length_app.
    rewrite (zfill_width 2 32 m) by (try (vm_compute; reflexivity); lia).
    rewrite (zfill_width 2 32 d) by (try (vm_compute; reflexivity); lia).
    cbn [String.length]. lia. }
  repeat split; try tauto; try lia.
  intros Hy. rewrite Hlen.
  now rewrite (int_text_width 4 1000 10000 y)
    by (try (vm_compute; reflexivity); lia).
Qed.

(** "29-Feb-2024" is a day of the calendar; "29-Feb-2023" is not one. *)
Lemma text_date_is_a_calendar_date_witness :
  (exists y m d,
      Strptime.valid_date y m d = true
      /\ 1 <= y <= 9999 /\ 1 <= m <= 12
      /\ 1 <= d <= Strptime.days_in_month y m
      /\ "2024-02-29T00:00:00.000Z"
         = strftime_iso_midnight (mk_datetime y m d 0 0 0)
      /\ String.length "2024-02-29T00:00:00.000Z"
         = (String.length (Py.str_of_int y) + 20)%nat
      /\ (1000 <= y -> String.length "2024-02-29T00:00:00.000Z" = 24%nat))
  /\ format_date (Str "29-Feb-2023") = None.
Proof.
  split; [| reflexivity].
  apply (text_date_is_a_calendar_date "29-Feb-2024").
  reflexivity.
Defined.

(** ** The matcher, further *)

Lemma scan_in (fn iu : string) (rs : list row) (r : row) (m : match_method) :
  scan_acc_file_id fn iu rs = Some (r, m) -> In r rs.
Proof.
  intros H. apply scan_some in H as (before & after & -> & _).
  apply in_or_app. right. now left.
Qed.

(** The row returned, and why. *)
Lemma find_row_sound
  (df : DataFrame) (file_name item_urn : string) (r : row) (m : match_method) :
  find_row file_name item_urn df = Some (r, m) ->
  In r (rows df)
  /\ ((m = file_name_column /\ has_column df "file_name" = true
       /\ name_row_matches file_name r = true)
      \/ ((m = urn \/ m = filename_in_acc_file_id)
          /\ has_column df "acc_file_id" = true
          /\ acc_row_matches file_name item_urn r = Some m)
      \/ (m = single_row /\ rows df = [r])).
Proof.
  unfold find_row.
  destruct (has_column df "file_name") eqn:Hn;
    [destruct (find (name_row_matches file_name) (rows df)) as [r1 |] eqn:Hf |];
    cbn [option_map].
  - intros H.
    assert (r1 = r /\ m = file_name_column) as [-> ->]
      by (destruct (rows df) as [| ? [| ? ?]]; injection H as <- <-; auto).
    apply find_some in Hf as [Hin Hr]. split; [exact Hin |]. left. auto.
  - destruct (has_column df "acc_file_id") eqn:Ha;
      [destruct (scan_acc_file_id file_name item_urn (rows df))
         as [[r2 m2] |] eqn:Hs |].
    + intros H.
      assert (r2 = r /\ m2 = m) as [-> ->]
        by (destruct (rows df) as [| ? [| ? ?]]; injection H as <- <-; auto).
      split; [now apply scan_in in Hs |]. right. left.
      apply scan_some in Hs as (_ & _ & _ & _ & Hm).
      pose proof (acc_row_methods _ _ _ _ Hm). repeat split; tauto.
    + destruct (rows df) as [| x [| ? ?]]; try discriminate.
      intros [= <- <-]. split; [now left |]. right. right. auto.
    + destruct (rows df) as [| x [| ? ?]]; try discriminate.
      intros [= <- <-]. split; [now left |]. right. right. auto.
  - destruct (has_column df "acc_file_id") eqn:Ha;
      [destruct (scan_acc_file_id file_name item_urn (rows df))
         as [[r2 m2] |] eqn:Hs |].
    + intros H.
      assert (r2 = r /\ m2 = m) as [-> ->]
        by (destruct (rows df) as [| ? [| ? ?]]; injection H as <- <-; auto).
      split; [now apply scan_in in Hs |]. right. left.
      apply scan_some in Hs as (_ & _ & _ & _ & Hm).
      pose proof (acc_row_methods _ _ _ _ Hm). repeat split; tauto.
    + destruct (rows df) as [| x [| ? ?]]; try discriminate.
      intros [= <- <-]. split; [now left |]. right. right. auto.
    + destruct (rows df) as [| x [| ? ?]]; try discriminate.
      intros [= <- <-]. split; [now left |]. right. right. auto.
Qed.

(** X10: the matcher is sound: the row it returns is a row of the frame,
    and it satisfies the test of the method reported with it: the name
    test for "file_name_column" (the column being there), the test of the
    pass over "acc_file_id" for "urn" and "filename_in_acc_file_id", and
    for "single_row" it is the only row of the frame.  No other method
    comes with a row. *)
Theorem matched_row_is_justified
  (df : DataFrame) (file_name item_urn : string) (r : row) (m : match_method) :
  find_row file_name item_urn df = Some (r, m) ->
  In r (rows df)
  /\ ((m = file_name_column /\ has_column df "file_name" = true
       /\ name_row_matches file_name r = true)
      \/ ((m = urn \/ m = filename_in_acc_file_id)
          /\ has_column df "acc_file_id" = true
          /\ acc_row_matches file_name item_urn r = Some m)
      \/ (m = single_row /\ rows df = [r])).
Proof.
  apply find_row_sound.
Qed.

(** In the scenario frame y.pdf is matched by the "acc_file_id" cell of
    the only row. *)
Lemma matched_row_is_justified_witness :
  In (hd [] (rows scenario_frame)) (rows scenario_frame)
  /\ acc_row_matches "y.pdf" "urn:y" (hd [] (rows scenario_frame))
     = Some filename_in_acc_file_id.
Proof.
  destruct (matched_row_is_justified
              scenario_frame "y.pdf" "urn:y" (hd [] (rows scenario_frame))
              filename_in_acc_file_id eq_refl)
    as [Hin [(H & _) | [(_ & _ & H) | (H & _)]]];
    try discriminate.
  split; [exact Hin | exact H].
Defined.

(** X11: a frame with one row is applied to every file: whatever the name
    and the id of the file, the matcher returns that row, and the payload
    is the one built from it; a frame with no row matches no file. *)
Theorem one_row_frame_matches_every_file
  (df : DataFrame) (file_name item_urn : string) :
  (forall r, rows df = [r] ->
             exists m,
               find_row file_name item_urn df = Some (r, m)
               /\ build_attributes_from_excel (Some df) file_name item_urn
                  = (Some (build_payload r (columns df)), m))
  /\ (rows df = [] ->
      build_attributes_from_excel (Some df) file_name item_urn
      = (None, not_matched)).
Proof.
  split.
  - intros r Hrows.
    assert (H : exists m, find_row file_name item_urn df = Some (r, m)).
    { unfold find_row. rewrite Hrows. cbn [find scan_acc_file_id].
      destruct (has_column df "file_name");
        [destruct (name_row_matches file_name r) |]; cbn [option_map];
        try (now eexists);
        (destruct (has_column df "acc_file_id");
         [destruct (acc_row_matches file_name item_urn r) |]; now eexists). }
    destruct H as (m & Hm). exists m. split; [exact Hm |].
    now apply build_attributes_matched.
  - intros Hrows. unfold build_attributes_from_excel, find_row.
    rewrite Hrows. cbn [find scan_acc_file_id].
    destruct (has_column df "file_name"), (has_column df "acc_file_id");
      reflexivity.
Qed.

(** [bulk_frame] has one row and neither matching column. *)
Lemma one_row_frame_matches_every_file_witness :
  exists m,
    find_row "any.dwg" "urn:any" bulk_frame
    = Some (hd [] (rows bulk_frame), m)
    /\ build_attributes_from_excel (Some bulk_frame) "any.dwg" "urn:any"
       = (Some (build_payload (hd [] (rows bulk_frame)) (columns bulk_frame)),
          m).
Proof.
  apply (one_row_frame_matches_every_file bulk_frame "any.dwg" "urn:any").
  reflexivity.
Defined.

Lemma before_last_head (sep c : ascii) (r b : string) :
  Ascii.eqb c sep = false ->
  Py.before_last sep (String c r) = Some b -> exists b', b = String c b'.
Proof.
  cbn. intros ->. destruct (Py.before_last sep r); [| discriminate].
  intros [= <-]. eauto.
Qed.

(** The base of a name begins as the name does, unless the name begins
    with the dot. *)
Lemma name_base_head (c : ascii) (r : string) :
  Ascii.eqb c "." = false -> exists b', name_base (String c r) = String c b'.
Proof.
  intros Hc. unfold name_base, Py.rsplit1_head.
  destruct (Py.contains "." (String c r)); [| eauto].
  destruct (Py.before_last "." (String c r)) as [b |] eqn:Hb; [| eauto].
  now apply (before_last_head "." c r b Hc).
Qed.

Lemma space_is_no_dot (c : ascii) :
  Py.isspace c = true -> Ascii.eqb c "." = false.
Proof.
  destruct c as [[] [] [] [] [] [] [] []]; cbv; congruence.
Qed.

(** The base of a text that begins with no white space is empty or begins
    with no white space. *)
Lemma name_base_of_stripped (c : ascii) (r : string) :
  Py.isspace c = false ->
  name_base (String c r) = EmptyString
  \/ exists b', name_base (String c r) = String c b'.
Proof.
  intros Hc. unfold name_base, Py.rsplit1_head.
  destruct (Py.contains "." (String c r)); [| eauto].
  cbn [Py.before_last]. destruct (Py.before_last "." r); [eauto |].
  destruct (Ascii.eqb c "."); eauto.
Qed.

(** A cell never matches, as a file name, a file whose name begins with
    white space. *)
Lemma stripped_text_against_spaced_name (fn t : string) (x : string) :
  starts_with_space fn = true ->
  t = Py.strip x -> t <> EmptyString ->
  String.eqb t fn = false
  /\ String.eqb t (name_base fn) = false
  /\ String.eqb (name_base t) (name_base fn) = false.
Proof.
  intros Hfn -> Ht.
  destruct fn as [| c r]; [discriminate |]. cbn in Hfn.
  destruct (name_base_head c r (space_is_no_dot c Hfn)) as (b' & Hb).
  destruct (strip_head x) as [H | (c' & r' & Hs & Hc')]; [contradiction |].
  rewrite Hs, Hb.
  assert (Hcc : c' <> c) by congruence.
  repeat split.
  - apply String.eqb_neq. congruence.
  - apply String.eqb_neq. congruence.
  - apply String.eqb_neq.
    destruct (name_base_of_stripped c' r' Hc') as [-> | (b'' & ->)];
      congruence.
Qed.

(** X12: a file whose name begins with white space is never matched by
    its name: the texts of the cells are stripped, the name of the file is
    not, so such a file can only be matched by its URN or by the single
    row of a one-row frame. *)
Theorem spaced_name_is_not_matched_by_name
  (df : DataFrame) (file_name item_urn : string) (r : row) (m : match_method) :
  starts_with_space file_name = true ->
  find_row file_name item_urn df = Some (r, m) ->
  m = urn \/ m = single_row.
Proof.
  intros Hfn Hrow.
  apply find_row_sound in Hrow
    as [_ [(-> & _ & Hname) | [(Hm & _ & Hacc) | (-> & _)]]]; [| | now right].
  - exfalso. unfold name_row_matches in Hname.
    apply andb_true_iff in Hname as [Ht Hname].
    apply truthy_true in Ht.
    destruct (stripped_text_against_spaced_name
                file_name _ _ Hfn eq_refl Ht) as (H1 & H2 & _).
    rewrite H1, H2 in Hname. discriminate.
  - apply acc_row_methods in Hacc as [(-> & _) | (-> & _ & Htest)];
      [now left |].
    exfalso. unfold filename_test in Htest.
    assert (Ht : cell_text r "acc_file_id" <> EmptyString).
    { intros He. rewrite He in Htest.
      destruct file_name as [| c fr]; [discriminate |]. cbn in Hfn.
      destruct (name_base_head c fr (space_is_no_dot c Hfn)) as (b' & Hb).
      rewrite Hb in Htest. discriminate. }
    destruct (stripped_text_against_spaced_name
                file_name _ _ Hfn eq_refl Ht) as (H1 & H2 & H3).
    unfold cell_text in Htest. rewrite H1, H2, H3 in Htest. discriminate.
Qed.

(** The file " x.pdf" against the scenario frame: only the single row is
    left to match it. *)
Lemma spaced_name_is_not_matched_by_name_witness :
  single_row = urn \/ single_row = single_row.
Proof.
  apply (spaced_name_is_not_matched_by_name
           scenario_frame " x.pdf" "urn:x" (hd [] (rows scenario_frame))
           single_row); reflexivity.
Defined.

Lemma contains_after (sub p s : string) :
  Py.contains sub s = true -> Py.contains sub (p ++ s)%string = true.
Proof.
  intros H. induction p as [| c p IH]; [exact H |].
  cbn [append Py.contains]. rewrite IH. now destruct (String.prefix _ _).
Qed.

(** X13: a match by URN needs an id that is a URN: when the method is
    "urn", the id of the item begins with "urn:" and holds one of the two
    markers; an item whose id does not can only be matched by its name. *)
Theorem urn_match_needs_a_urn
  (df : DataFrame) (file_name item_urn : string) (r : row) :
  find_row file_name item_urn df = Some (r, urn) ->
  Py.startswith item_urn "urn:" = true
  /\ looks_like_urn item_urn = true
  /\ (item_urn = cell_text r "acc_file_id"
      \/ item_urn = ("urn:" ++ cell_text r "acc_file_id")%string).
Proof.
  intros Hrow.
  apply find_row_sound in Hrow
    as [_ [(H & _) | [(_ & _ & Hacc) | (H & _)]]]; try discriminate.
  apply acc_row_methods in Hacc as [(_ & Hmark & Hurn) | (H & _)];
    [| discriminate].
  unfold as_urn, Py.startswith in Hurn.
  destruct (String.prefix "urn:" (cell_text r "acc_file_id")) eqn:Hp;
    cbn [negb] in Hurn; subst item_urn.
  - repeat split; auto.
  - split; [| split; [| now right]].
    { unfold Py.startswith.
      now destruct (cell_text r "acc_file_id"). }
    unfold looks_like_urn in *. apply orb_true_iff in Hmark.
    apply orb_true_iff.
    destruct Hmark as [H | H]; [left | right]; now apply contains_after.
Qed.

(** [urn_row] matches the item of its URN, written without "urn:". *)
Lemma urn_match_needs_a_urn_witness :
  Py.startswith "urn:adsk.wipprod:dm.lineage:abc" "urn:" = true
  /\ looks_like_urn "urn:adsk.wipprod:dm.lineage:abc" = true
  /\ ("urn:adsk.wipprod:dm.lineage:abc" = cell_text urn_row "acc_file_id"
      \/ "urn:adsk.wipprod:dm.lineage:abc"
         = ("urn:" ++ cell_text urn_row "acc_file_id")%string).
Proof.
  apply (urn_match_needs_a_urn
           (mk_frame ["acc_file_id"] [urn_row; plain_row])
           "x.pdf" "urn:adsk.wipprod:dm.lineage:abc" urn_row).
  reflexivity.
Defined.

Lemma prefix_dot (s : string) :
  String.prefix "." s = true <-> exists r, s = String "." r.
Proof.
  destruct s as [| c r].
  - split; [discriminate | intros (? & H); discriminate H].
  - change (String.prefix "." (String c r))
      with (match ascii_dec "." c with
            | left _ => String.prefix EmptyString r
            | right _ => false
            end).
    destruct (ascii_dec "." c) as [Hc | Hc].
    + subst c. split; [intros _; now exists r | intros _; now destruct r].
    + split; [discriminate |]. intros (r' & H). injection H as H _.
      congruence.
Qed.

(** A text holds a dot exactly when it has a part before its last dot. *)
Lemma contains_dot (s : string) :
  Py.contains "." s = true <-> Py.before_last "." s <> None.
Proof.
  induction s as [| c r IH]; [cbn; split; congruence |].
  cbn [Py.contains Py.before_last].
  destruct (String.prefix "." (String c r)) eqn:Hp.
  - apply prefix_dot in Hp as (r' & [= -> ->]).
    split; [| reflexivity]. intros _.
    destruct (Py.before_last "." r'); cbn; discriminate.
  - rewrite IH. destruct (Py.before_last "." r); [split; congruence |].
    destruct (Ascii.eqb_spec c ".") as [-> | _]; [| tauto].
    exfalso. assert (H : String.prefix "." (String "." r) = true)
      by (apply prefix_dot; eauto).
    congruence.
Qed.

(** The part before the last dot, the dot and a rest without dot make up
    the text. *)
Lemma before_last_splits (s b : string) :
  Py.before_last "." s = Some b ->
  exists ext, s = (b ++ "." ++ ext)%string /\ Py.before_last "." ext = None.
Proof.
  revert b. induction s as [| c r IH]; intros b; [discriminate |].
  cbn [Py.before_last].
  destruct (Py.before_last "." r) as [b' |] eqn:Hr.
  - intros [= <-]. destruct (IH b' eq_refl) as (ext & -> & Hext).
    now exists ext.
  - destruct (Ascii.eqb_spec c ".") as [-> | _]; [| discriminate].
    intros [= <-]. now exists r.
Qed.

(** X14: the base of a name is the name itself when the name holds no
    dot; otherwise the name is its base, a dot and an extension that holds
    no dot: only the segment after the last dot is taken off, so a name
    that begins with its only dot has the empty base. *)
Theorem name_base_drops_last_segment (s : string) :
  (Py.contains "." s = false -> name_base s = s)
  /\ (Py.contains "." s = true ->
      exists ext, s = (name_base s ++ "." ++ ext)%string
                  /\ Py.contains "." ext = false).
Proof.
  unfold name_base, Py.rsplit1_head. split.
  - now intros ->.
  - intros H. rewrite H. apply contains_dot in H.
    destruct (Py.before_last "." s) as [b |] eqn:Hb; [| congruence].
    destruct (before_last_splits s b Hb) as (ext & Hs & Hext).
    exists ext. split; [exact Hs |].
    destruct (Py.contains "." ext) eqn:Hc; [| reflexivity].
    apply contains_dot in Hc. congruence.
Qed.

(** "report.v2.pdf" loses ".pdf" alone. *)
Lemma name_base_drops_last_segment_witness :
  exists ext, "report.v2.pdf" = (name_base "report.v2.pdf" ++ "." ++ ext)%string
              /\ Py.contains "." ext = false.
Proof.
  apply (name_base_drops_last_segment "report.v2.pdf"). reflexivity.
Defined.

(** ** The payload builder, further *)

(** X15: a payload built over distinct columns has at most nine entries,
    one for each attribute of the schema at most. *)
Theorem payload_has_at_most_nine_entries (r : row) (cols : list string) :
  NoDup cols -> (List.length (build_payload r cols) <= 9)%nat.
Proof.
  intros Hcols.
  rewrite <- (length_map attr_id).
  change 9%nat with (List.length (map snd ATTRIBUTE_MAPPING)).
  apply NoDup_incl_length; [now apply payload_ids_distinct |].
  intros id Hin. apply in_map_iff in Hin as (a & <- & Hin).
  apply payload_entry_origin in Hin as (c & _ & Hget & _).
  apply dict_get_in in Hget. change (attr_id a) with (snd (c, attr_id a)).
  now apply in_map.
Qed.

Lemma payload_has_at_most_nine_entries_witness :
  (List.length (build_payload vague_row
                              ["Package ID"; "Planned Start"; "Planned End"])
   <= 9)%nat.
Proof.
  apply (payload_has_at_most_nine_entries vague_row).
  repeat (constructor; [cbn [In]; intuition discriminate |]).
  constructor.
Defined.

Lemma no_space_app (a b : string) :
  no_space (a ++ b)%string = no_space a && no_space b.
Proof.
  induction a as [| c a IH]; cbn; [reflexivity |].
  now rewrite IH, andb_assoc.
Qed.

Lemma int_text_no_space (z : Z) : no_space (Py.str_of_int z) = true.
Proof.
  destruct (int_text_shape z) as [H | (r & -> & H)].
  - now apply all_digits_no_space.
  - cbn. now apply all_digits_no_space.
Qed.

Lemma zfill_no_space (w : nat) (z : Z) : no_space (Py.zfill w z) = true.
Proof.
  unfold Py.zfill. rewrite no_space_app, int_text_no_space, andb_true_r.
  induction (w - String.length (Py.str_of_int z))%nat; cbn; auto.
Qed.

(** A timestamp holds no white space. *)
Lemma timestamp_no_space (dt : datetime) :
  no_space (strftime_iso_midnight dt) = true.
Proof.
  unfold strftime_iso_midnight.
  rewrite !no_space_app, !zfill_no_space, int_text_no_space. reflexivity.
Qed.

Lemma format_date_trimmed (v : cell) (out : string) :
  format_date v = Some out -> trimmed out.
Proof.
  intros H. apply strip_no_space.
  unfold format_date in H.
  destruct (isna v || is_empty_str v); [discriminate |].
  destruct v as [| s | z | d];
    try (apply try_formats_shape in H as (dt & ->);
         now apply timestamp_no_space).
  injection H as <-. apply timestamp_no_space.
Qed.

(** X16: every value of a payload is trimmed: it does not begin and does
    not end with white space, be it the stripped text of a cell or a
    timestamp. *)
Theorem payload_values_are_trimmed (r : row) (cols : list string) :
  Forall (fun a => trimmed (attr_value a)) (build_payload r cols).
Proof.
  apply Forall_forall. intros a Ha.
  apply payload_entry_origin in Ha as (c & _ & _ & Hval & _).
  unfold column_value in Hval.
  destruct (is_date_column c); [now apply (format_date_trimmed _ _ Hval) |].
  destruct (isna _); [discriminate |]. cbn [negb] in Hval.
  injection Hval as <-. apply strip_idempotent.
Qed.

(** ** The update URL *)

(** A text without the old text is left as it is. *)
Lemma replace_without_occurrence (old new s : string) :
  Py.contains old s = false -> Url.replace s old new = s.
Proof.
  unfold Url.replace. induction s as [| c r IH]; [reflexivity |].
  cbn [Py.contains Url.replace_from].
  destruct (String.prefix old (String c r)); [discriminate |].
  intros H. now rewrite (IH H).
Qed.

(** X17: the project id goes into the update URL without its "b."
    prefix: an id "b." followed by a text that holds no "b." is put in as
    that text, and an id that holds no "b." is put in unchanged. *)
Theorem update_url_drops_the_b_prefix (rest version_urn : string) :
  Py.contains "b." rest = false ->
  Url.replace ("b." ++ rest) "b." "" = rest
  /\ Url.replace rest "b." "" = rest
  /\ Url.update_url ("b." ++ rest) version_urn
     = (Url.BASE_URL ++ "/bim360/docs/v1/projects/" ++ rest ++ "/versions/"
        ++ Url.quote version_urn ++ "/custom-attributes:batch-update")%string
  /\ Url.update_url ("b." ++ rest) version_urn
     = Url.update_url rest version_urn.
Proof.
  intros Hrest.
  assert (H1 : Url.replace ("b." ++ rest) "b." "" = rest).
  { unfold Url.replace.
    change (Url.replace_from "b." "" 0 ("b." ++ rest)%string)
      with (if String.prefix "" rest
            then Url.replace_from "b." "" 0 rest
            else String "b" (Url.replace_from "b." "" 0 (String "." rest))).
    replace (String.prefix "" rest) with true by (now destruct rest).
    now apply replace_without_occurrence. }
  assert (H2 : Url.replace rest "b." "" = rest)
    by now apply replace_without_occurrence.
  unfold Url.update_url. rewrite H1, H2. auto.
Qed.

Lemma update_url_drops_the_b_prefix_witness :
  Url.update_url sample_project sample_version
  = Url.update_url "2f3a-77" sample_version.
Proof.
  apply (update_url_drops_the_b_prefix "2f3a-77" sample_version).
  reflexivity.
Defined.

Lemma list_of_string_app (a b : string) :
  list_ascii_of_string (a ++ b)%string
  = list_ascii_of_string a ++ list_ascii_of_string b.
Proof.
  induction a as [| c a IH]; cbn; [reflexivity | now rewrite IH].
Qed.

Lemma quote_char_is_safe (c : ascii) :
  forallb (fun x => Url.always_safe x || Ascii.eqb x "%")
          (list_ascii_of_string (Url.quote_char c)) = true.
Proof.
  destruct c as [[] [] [] [] [] [] [] []]; vm_compute; reflexivity.
Qed.

Lemma quote_is_safe (s : string) :
  forallb (fun x => Url.always_safe x || Ascii.eqb x "%")
          (list_ascii_of_string (Url.quote s)) = true.
Proof.
  induction s as [| c r IH]; [reflexivity |].
  cbn [Url.quote]. rewrite list_of_string_app, forallb_app, IH.
  now rewrite quote_char_is_safe.
Qed.

(** Reading back the character at the head of a quoted text. *)
Lemma read_quoted_char (c : ascii) (x : string) :
  Url.read_char (Url.quote_char c ++ x)%string = Some (c, x).
Proof.
  destruct c as [[] [] [] [] [] [] [] []]; vm_compute; reflexivity.
Qed.

Lemma quote_injective (s1 s2 : string) :
  Url.quote s1 = Url.quote s2 -> s1 = s2.
Proof.
  revert s2. induction s1 as [| c1 r1 IH]; intros [| c2 r2] H.
  - reflexivity.
  - exfalso. apply (f_equal Url.read_char) in H. cbn [Url.quote] in H.
    rewrite read_quoted_char in H. discriminate.
  - exfalso. apply (f_equal Url.read_char) in H. cbn [Url.quote] in H.
    rewrite read_quoted_char in H. discriminate.
  - apply (f_equal Url.read_char) in H. cbn [Url.quote] in H.
    rewrite !read_quoted_char in H. injection H as -> H.
    now rewrite (IH r2 H).
Qed.

Lemma string_app_inv_head (a x y : string) :
  (a ++ x = a ++ y)%string -> x = y.
Proof.
  induction a as [| c a IH]; cbn; [auto |]. intros [= H]. auto.
Qed.

Lemma string_app_inv_tail (b x y : string) :
  (x ++ b = y ++ b)%string -> x = y.
Proof.
  intros H. apply (f_equal list_ascii_of_string) in H.
  rewrite !list_of_string_app in H. apply app_inv_tail in H.
  rewrite <- (string_of_list_ascii_of_string x).
  rewrite <- (string_of_list_ascii_of_string y). now rewrite H.
Qed.

(** X18: the version URN is percent-encoded in the update URL: the
    encoded text holds letters, digits, [_.-~] and "%" only, so no
    slash, colon, question mark or space of the URN reaches the URL; and
    the encoding loses nothing: two versions with the same update URL, for
    one project, are the same version. *)
Theorem version_urn_is_safely_encoded (project_id v1 v2 : string) :
  (forall c, In c (list_ascii_of_string (Url.quote v1)) ->
             Url.always_safe c = true \/ c = "%"%char)
  /\ ~ In "/"%char (list_ascii_of_string (Url.quote v1))
  /\ ~ In "?"%char (list_ascii_of_string (Url.quote v1))
  /\ (Url.quote v1 = Url.quote v2 -> v1 = v2)
  /\ (Url.update_url project_id v1 = Url.update_url project_id v2 -> v1 = v2).
Proof.
  assert (Hsafe : forall c, In c (list_ascii_of_string (Url.quote v1)) ->
                            Url.always_safe c = true \/ c = "%"%char).
  { intros c Hin. pose proof (quote_is_safe v1) as H.
    rewrite forallb_forall in H. specialize (H c Hin).
    apply orb_true_iff in H as [H | H]; [now left |].
    right. now apply Ascii.eqb_eq. }
  split; [exact Hsafe |].
  split; [intros H; destruct (Hsafe _ H); discriminate |].
  split; [intros H; destruct (Hsafe _ H); discriminate |].
  split; [apply quote_injective |].
  unfold Url.update_url. intros H.
  repeat (apply string_app_inv_head in H).
  apply string_app_inv_tail in H. now apply quote_injective.
Qed.

Lemma version_urn_is_safely_encoded_witness :
  Url.quote sample_version
  = "urn%3Aadsk.wipprod%3Afs.file%3Avf.abc%3Fversion%3D2"
  /\ ~ In "?"%char (list_ascii_of_string (Url.quote sample_version)).
Proof.
  split; [reflexivity |].
  apply (version_urn_is_safely_encoded "b.1" sample_version sample_version).
Defined.

(** ** The walk and the loop together *)

Section LoopOrigin.

Variables (use_excel : bool) (excel : option DataFrame) (R : remote).

(** Where a request of one iteration comes from. *)
Lemma process_file_call_origin (st : state) (f : file_info) (c : call) :
  In c (calls (process_file use_excel excel R st f)) ->
  In c (calls st)
  \/ (use_excel = true
      /\ exists p m,
          build_attributes_from_excel excel (fi_name f) (fi_id f) = (Some p, m)
          /\ p <> []
          /\ (c = tip_lookup (fi_id f)
              \/ exists v,
                  get_version_urn_from_item (tip R (fi_id f)) = Some v
                  /\ c = batch_update_post v p)).
Proof.
  unfold process_file. destruct use_excel; [| now left].
  destruct (build_attributes_from_excel excel (fi_name f) (fi_id f))
    as [p source].
  destruct p as [[| a p] |]; cbn [not_payload]; try (now left).
  unfold update_file.
  destruct (get_version_urn_from_item (tip R (fi_id f))) as [v |];
    cbn [not_version].
  - destruct (Py.truthy v); cbn [negb].
    + destruct (update_custom_attributes _) as [[|] message];
        cbn [calls record_success record_failed]; intros Hin;
        apply in_app_iff in Hin as [Hin | [<- | [<- | []]]];
        try (now left); right; (split; [reflexivity |]);
        exists (a :: p), source; repeat split; try discriminate;
        try (now left); right; now exists v.
    + cbn [calls record_failed]. intros Hin.
      apply in_app_iff in Hin as [Hin | [<- | []]]; [now left |].
      right. split; [reflexivity |].
      exists (a :: p), source. repeat split; try discriminate. now left.
  - cbn [calls record_failed]. intros Hin.
    apply in_app_iff in Hin as [Hin | [<- | []]]; [now left |].
    right. split; [reflexivity |].
    exists (a :: p), source. repeat split; try discriminate. now left.
Qed.

Lemma loop_call_origin (files : list file_info) (st : state) (v : string)
  (p : payload) :
  In (batch_update_post v p)
     (calls (fold_left (process_file use_excel excel R) files st)) ->
  In (batch_update_post v p) (calls st)
  \/ exists f m,
      In f files /\ use_excel = true
      /\ build_attributes_from_excel excel (fi_name f) (fi_id f) = (Some p, m)
      /\ get_version_urn_from_item (tip R (fi_id f)) = Some v.
Proof.
  revert st. induction files as [| f rest IH]; intros st; [now left |].
  cbn [fold_left]. intros Hin.
  destruct (IH _ Hin) as [Hst | (f' & m & Hf' & H)].
  - apply process_file_call_origin in Hst
      as [Hst | (Hu & p' & m & Hb & _ & [Hc | (v' & Hv & Hc)])].
    + now left.
    + discriminate.
    + injection Hc as -> ->. right. exists f, m.
      repeat split; try assumption. now left.
  - right. exists f', m. split; [now right | exact H].
Qed.

End LoopOrigin.

(** X19: every update the loop posts is the payload built from the
    spreadsheet for one of the files found, posted for the version that
    the lookup of that very file returned; no other payload and no other
    version is ever posted. *)
Theorem posted_update_belongs_to_a_file
  (use_excel : bool) (excel : option DataFrame) (R : remote)
  (all_files : list file_info) (v : string) (p : payload) :
  In (batch_update_post v p) (calls (main_loop use_excel excel R all_files)) ->
  exists f m,
    In f all_files /\ use_excel = true
    /\ build_attributes_from_excel excel (fi_name f) (fi_id f) = (Some p, m)
    /\ get_version_urn_from_item (tip R (fi_id f)) = Some v.
Proof.
  intros Hin. unfold main_loop in Hin.
  apply loop_call_origin in Hin as [[] | H]. exact H.
Qed.

(** The update posted for x.pdf in the scenario. *)
Lemma posted_update_belongs_to_a_file_witness :
  exists f m,
    In f [mk_file_info "ix" "x.pdf" "A/x.pdf"] /\ true = true
    /\ build_attributes_from_excel (Some scenario_frame) (fi_name f) (fi_id f)
       = (Some [mk_attribute 7374741 "12";
                mk_attribute 7374777 "2024-01-15T00:00:00.000Z"], m)
    /\ get_version_urn_from_item (tip obliging (fi_id f))
       = Some "urn:adsk.wipprod:fs.file:v?version=1".
Proof.
  apply (posted_update_belongs_to_a_file
           true (Some scenario_frame) obliging
           [mk_file_info "ix" "x.pdf" "A/x.pdf"]).
  right. left. reflexivity.
Defined.

(** X20: the report of a completed run lists the FILE entries of the
    tree under the root folder, in depth-first pre-order, one line for
    each, under the path the walk gave it. *)
Theorem report_lists_the_files_of_the_tree
  (env : settings) (use_excel : bool) (excel : option DataFrame)
  (token_reply : reply (option string)) (root : listing) (choice : string)
  (R : remote) (st : state) :
  main env use_excel excel token_reply root choice R = completed st ->
  map file (results st)
  = map (fun e => trimmed_path (fst e) (item_name_of (snd e)))
        (file_entries root).
Proof.
  unfold main.
  destruct (negb _); [discriminate |].
  destruct (get_token token_reply); [| discriminate].
  destruct (_ =? _)%nat; [discriminate |].
  destruct (negb _); [discriminate |].
  intros [= <-].
  destruct (loop_invariant use_excel excel R
                           (get_all_files_recursive root "") initial_state)
    as (Hmap & _).
  unfold main_loop. cbn [initial_state results map app] in Hmap.
  rewrite Hmap.
  unfold get_all_files_recursive, file_entries, tree_entries.
  change EmptyString with (walked_path []).
  rewrite for_items_walks
    by (apply Forall_forall; intros it _; apply every_item_walks).
  rewrite map_map. apply map_ext. now intros [anc [ty n i sub]].
Qed.

Lemma report_lists_the_files_of_the_tree_witness :
  map file
      (results (main_loop true (Some scenario_frame) obliging
                          (get_all_files_recursive (scenario_tree b_contents)
                                                   "")))
  = ["A/B/y.pdf"; "A/x.pdf"].
Proof.
  apply (report_lists_the_files_of_the_tree
           all_set true (Some scenario_frame) (Http 200 (Some "t"))
           (scenario_tree b_contents) "y" obliging).
  reflexivity.
Defined.

(** ** The payload builder: what is sent and what is not *)

Lemma blank_cell_has_no_value (r : row) (col : string) :
  isna (series_get r col NaN) = true
  \/ treated_as_absent (series_get r col NaN) ->
  column_value r col = None \/ column_value r col = Some EmptyString.
Proof.
  unfold column_value, treated_as_absent, format_date.
  generalize (series_get r col NaN). intros c [Hna | Hblank].
  - rewrite Hna. cbn [orb negb]. destruct (is_date_column col); now left.
  - destruct (is_date_column col).
    + left. destruct c as [| s | z | d]; cbn [isna is_empty_str orb].
      * reflexivity.
      * cbn [py_str] in *. rewrite Hblank. now destruct s.
      * rewrite Hblank. reflexivity.
      * exfalso. apply strip_empty_iff in Hblank.
        now rewrite date_text_inked in Hblank.
    + destruct (isna c); [now left |]. right. cbn [negb]. now rewrite Hblank.
Qed.

(** X21: a cell that is missing, empty or white space only is never
    sent: the attribute of its column has no entry in the payload, in a
    date column as in any other. *)
Theorem blank_cells_are_not_sent
  (r : row) (cols : list string) (col : string) (id : Z) :
  dict_get ATTRIBUTE_MAPPING col = Some id ->
  isna (series_get r col NaN) = true
  \/ treated_as_absent (series_get r col NaN) ->
  ~ In id (map attr_id (build_payload r cols)).
Proof.
  intros Hid Hblank Hin.
  apply in_map_iff in Hin as (a & <- & Hin).
  apply payload_entry_origin in Hin as (c & _ & Hget & Hval & Hne).
  rewrite (dict_get_injective c col (attr_id a) Hget Hid) in Hval.
  destruct (blank_cell_has_no_value r col Hblank) as [H | H];
    rewrite H in Hval; [discriminate |].
  injection Hval as Hval. congruence.
Qed.

(** The contractor cell of the first row of [blank_frame] is missing. *)
Lemma blank_cells_are_not_sent_witness :
  ~ In 7374759
       (map attr_id (build_payload (hd [] (rows blank_frame))
                                   (columns blank_frame))).
Proof.
  apply (blank_cells_are_not_sent
           (hd [] (rows blank_frame)) (columns blank_frame) "Contractor").
  - reflexivity.
  - left. reflexivity.
Defined.

(** X22: the payload holds exactly the columns of the frame that the
    schema knows and whose value for the row is not empty: an entry is in
    the payload if and only if it pairs the attribute id of such a column
    with that value. *)
Theorem payload_holds_exactly_the_valued_columns
  (r : row) (cols : list string) (a : attribute) :
  In a (build_payload r cols)
  <-> exists col,
      In col cols
      /\ dict_get ATTRIBUTE_MAPPING col = Some (attr_id a)
      /\ column_value r col = Some (attr_value a)
      /\ attr_value a <> EmptyString.
Proof.
  split; [apply payload_entry_origin |].
  intros (col & Hin & Hid & Hval & Hne).
  induction cols as [| c rest IH]; [contradiction |].
  cbn [build_payload].
  destruct Hin as [-> | Hin].
  - rewrite Hid, Hval. apply truthy_true in Hne. rewrite Hne.
    left. now destruct a.
  - specialize (IH Hin).
    destruct (dict_get ATTRIBUTE_MAPPING c); [| exact IH].
    destruct (column_value r c) as [v |]; [| exact IH].
    destruct (Py.truthy v); [now right | exact IH].
Qed.

(** In [vague_row] the package id is sent and the planned start is not. *)
Lemma payload_holds_exactly_the_valued_columns_witness :
  In (mk_attribute 7374741 "P-7")
     (build_payload vague_row ["Package ID"; "Planned Start"; "Planned End"]).
Proof.
  apply (payload_holds_exactly_the_valued_columns
           vague_row ["Package ID"; "Planned Start"; "Planned End"]
           (mk_attribute 7374741 "P-7")).
  exists "Package ID". repeat split; [now left | discriminate].
Defined.

(** A run with every setting, a token, the scenario tree and the answer
    "Y" reaches the loop. *)
Lemma main_runs_only_when_confirmed_witness :
  main all_set true (Some scenario_frame) (Http 200 (Some "t"))
       (scenario_tree b_contents) "Y" obliging
  = completed (main_loop true (Some scenario_frame) obliging
                         (get_all_files_recursive (scenario_tree b_contents)
                                                  "")).
Proof.
  apply (main_runs_only_when_confirmed
           all_set true (Some scenario_frame) (Http 200 (Some "t"))
           (scenario_tree b_contents) "Y" obliging).
  repeat split; try reflexivity; try discriminate.
  now right.
Defined.
